(** * EmbeddedChat: theming and component overrides

    A shallow embedding of the theme accessor ([useTheme], [invertMode]),
    of the consumers of [useComponentOverrides] shown in the theming guide
    ([MessageToolbox], [MessageHeader]) and of the [Message] view.

    Conventions of the embedding:
    - a JavaScript value that may be [undefined] is an [option];
    - [a?.b] is the bind of [option], [a.b] on an [undefined] [a] throws;
    - a hook is a computation over the ambient render environment (the
      React contexts), written in the monad [Render];
    - a component returns the element tree it builds, as a record. *)

From Stdlib Require Import String Ascii List Bool.
From stdpp Require Import base option list gmap strings.

Local Open Scope string_scope.

(* ===================================================================== *)
(** ** JavaScript helpers                                                 *)
(* ===================================================================== *)

Module Js.

(** [s.includes(sub)] on strings. *)
Fixpoint includes (s sub : string) : bool :=
  String.prefix sub s
  || match s with
     | EmptyString => false
     | String _ rest => includes rest sub
     end.

(** Truthiness of a value that is a string or [undefined]: only
    [undefined] and the empty string are falsy. *)
Definition truthy (v : option string) : bool :=
  match v with
  | Some s => negb (String.eqb s EmptyString)
  | None => false
  end.

(** [v === lit] where [lit] is a string literal. *)
Definition strictEq (v : option string) (lit : string) : bool :=
  match v with
  | Some s => String.eqb s lit
  | None => false
  end.

(** [a || b] where [a] is an object (an array, a style object) or
    [undefined]: every object is truthy, the empty array too. *)
Definition orElse {A : Type} (a b : option A) : option A :=
  match a with
  | Some x => Some x
  | None => b
  end.

(** [xs.filter((x) => x !== null)] *)
Fixpoint dropNull {A : Type} (xs : list (option A)) : list A :=
  match xs with
  | [] => []
  | Some x :: rest => x :: dropNull rest
  | None :: rest => dropNull rest
  end.

End Js.

(* ===================================================================== *)
(** ** Data model                                                         *)
(* ===================================================================== *)

(** A serialised block of CSS declarations, the value of an Emotion
    [css] template. *)
Definition Css := string.

(** An inline style object: CSS property to value. *)
Abbreviation StyleObject := (gmap string string).

(** A colour set: semantic colour role to colour value. *)
Abbreviation ColorSet := (gmap string string).

Module ThemeData.

Record Theme := mkTheme {
  name : string;
  schemes : option (gmap string ColorSet);
  radius : string
}.

(** What the provider's two [useState] cells hold. *)
Record ProviderState := mkProviderState {
  activeTheme : Theme;
  activeMode : string
}.

(** A setter handed out by the provider acts on the provider's state. *)
Definition Setter (A : Type) : Type := A -> ProviderState -> ProviderState.

(** The value carried by [ThemeContext]. *)
Record ThemeContextValue := mkThemeContextValue {
  theme : Theme;
  mode : string;
  colors : option ColorSet;
  invertedColors : option ColorSet;
  setMode : Setter string;
  setTheme : Setter Theme
}.

End ThemeData.

Module OverrideData.

(** [optionConfig]: the keys of the toolbox items to show, per place. *)
Record OptionConfig := mkOptionConfig {
  surfaceItems : option (list string);
  menuItems : option (list string)
}.

Record ConfigOverrides := mkConfigOverrides {
  optionConfig : option OptionConfig
}.

(** An entry of the override registry; every field is optional. *)
Record OverrideEntry := mkOverrideEntry {
  entryStyleOverrides : option StyleObject;
  entryClassNames : option string;
  entryVariantOverrides : option string;
  entryConfigOverrides : option ConfigOverrides
}.

(** The entry [{}]: no field given. *)
Definition emptyEntry : OverrideEntry :=
  {| entryStyleOverrides := None;
     entryClassNames := None;
     entryVariantOverrides := None;
     entryConfigOverrides := None |}.

(** What [useComponentOverrides] hands to a component. *)
Record ResolvedOverride := mkResolvedOverride {
  styleOverrides : option StyleObject;
  classNames : option string;
  variantOverrides : option string;
  configOverrides : option ConfigOverrides
}.

End OverrideData.

Module MessageData.

Record User := mkUser {
  username : string
}.

(** The fields of a chat message the views read. [t] is the type of a
    system message, absent on a user's message; [md] is the parsed
    markdown; [ts] is the time stamp in milliseconds. *)
Record MessageObject := mkMessageObject {
  _id : string;
  u : User;
  t : option string;
  md : option (list string);
  isPending : bool;
  ts : Z
}.

End MessageData.

(* ===================================================================== *)
(** ** The render environment and the monad of hooks                      *)
(* ===================================================================== *)

(** The ambient state a render reads: the nearest [ThemeContext] value
    (absent without a provider) and the host's override registry. *)
Record Env := mkEnv {
  themeContext : option ThemeData.ThemeContextValue;
  overrideRegistry : gmap string OverrideData.OverrideEntry
}.

(** The same environment over another registry. *)
Definition withRegistry (env : Env)
    (registry : gmap string OverrideData.OverrideEntry) : Env :=
  {| themeContext := themeContext env; overrideRegistry := registry |}.

Inductive Outcome (A : Type) : Type :=
| Ok (value : A)
| Throw (error : string).

Arguments Ok {A} value.
Arguments Throw {A} error.

Definition Render (A : Type) : Type := Env -> Outcome A * Env.

#[global] Instance render_ret : MRet Render :=
  fun A (a : A) env => (Ok a, env).

#[global] Instance render_bind : MBind Render :=
  fun A B (k : A -> Render B) (m : Render A) env =>
    match m env with
    | (Ok a, env') => k a env'
    | (Throw e, env') => (Throw e, env')
    end.

(** Read the environment without touching it. *)
Definition reads {A : Type} (f : Env -> A) : Render A :=
  fun env => (Ok (f env), env).

(** [throw new TypeError(...)] *)
Definition throwTypeError {A : Type} (what : string) : Render A :=
  fun env => (Throw ("TypeError: " ++ what), env).

(** [useContext(ThemeContext)] *)
Definition useContext_ThemeContext : Render (option ThemeData.ThemeContextValue) :=
  reads themeContext.

(* ===================================================================== *)
(** ** Theme accessor                                                     *)
(* ===================================================================== *)

Module ThemeAccessor.
Import ThemeData.

(** [const invertMode = (mode) => (mode === 'light' ? 'dark' : 'light');] *)
Definition invertMode (mode : string) : string :=
  if String.eqb mode "light" then "dark" else "light".

(** [theme.schemes?.[mode]] *)
Definition schemeOf (t : Theme) (m : string) : option ColorSet :=
  schemes t ≫= (fun byMode => byMode !! m).

(** [() => {}] *)
Definition noop {A : Type} : Setter A := fun _ st => st.

(** [useTheme]; [DefaultTheme] is the module imported from
    [../theme/DefaultTheme]. *)
Definition useTheme (DefaultTheme : Theme) : Render ThemeContextValue :=
  context ← useContext_ThemeContext;
  match context with
  | None =>
      let defaultMode := "light" in
      let defaultTheme := DefaultTheme in
      let colors := schemeOf defaultTheme defaultMode in
      let invertedColors := schemeOf defaultTheme (invertMode defaultMode) in
      mret {| theme := defaultTheme;
              mode := defaultMode;
              colors := colors;
              invertedColors := invertedColors;
              setMode := noop;
              setTheme := noop |}
  | Some ctx => mret ctx
  end.

(** Modelled from the spec: the provider that fills [ThemeContext] is
    not among the sources. The value it gives has the active theme's
    scheme for the active mode as [colors] and the one for the inverted
    mode as [invertedColors]. *)
Definition builtByProvider (ctx : ThemeContextValue) : Prop :=
  colors ctx = schemeOf (theme ctx) (mode ctx)
  /\ invertedColors ctx
     = schemeOf (theme ctx) (invertMode (mode ctx)).

End ThemeAccessor.

(* ===================================================================== *)
(** ** Override resolver                                                  *)
(* ===================================================================== *)

Module Overrides.
Import OverrideData.

(** The result for a component the registry does not list. *)
Definition noOverrides : ResolvedOverride :=
  {| styleOverrides := None;
     classNames := None;
     variantOverrides := None;
     configOverrides := None |}.

(** Modelled from the spec: the hook [useComponentOverrides], imported
    from [../../hooks/useComponentOverrides], is not among the sources.
    The resolver looks the component name up in the override registry; an
    absent entry gives every field empty, a present one is handed over
    raw: the call-site class name and style are not merged in, and the
    default of a variant is left to the component. *)
Definition useComponentOverrides
    (componentName : string) (className : option string)
    (style : option StyleObject) : Render ResolvedOverride :=
  registry ← reads overrideRegistry;
  match registry !! componentName with
  | None => mret noOverrides
  | Some entry =>
      mret {| styleOverrides := entryStyleOverrides entry;
              classNames := entryClassNames entry;
              variantOverrides := entryVariantOverrides entry;
              configOverrides := entryConfigOverrides entry |}
  end.

(** Modelled from the spec: the helper [appendClassNames] is not among
    the sources. It joins the component's fixed class name and the
    registry's class list with a space, leaving out empty entries. *)
Definition appendClassNames (base : string) (extra : option string) : string :=
  match extra with
  | Some cls =>
      if String.eqb cls EmptyString then base
      else if String.eqb base EmptyString then cls
      else base ++ " " ++ cls
  | None => base
  end.

End Overrides.

(* ===================================================================== *)
(** ** MessageToolbox                                                     *)
(* ===================================================================== *)

Module Toolbox.
Import OverrideData.

(** A click handler; the embedding only moves handlers around, so a
    handler is known by its name. *)
Definition Handler := string.

(** An entry of the component's [options] table. *)
Record ToolOption := mkToolOption {
  label : string;
  id : string;
  onClick : Handler;
  iconName : string;
  visible : bool;
  type : option string
}.

(** An option as [Menu] takes it. *)
Record MenuOption := mkMenuOption {
  menuId : string;
  menuAction : Handler;
  menuLabel : string;
  menuIcon : string
}.

(** An option as [SurfaceMenu] takes it. *)
Record SurfaceOption := mkSurfaceOption {
  surfaceId : string;
  surfaceOnClick : Handler;
  surfaceLabel : string;
  surfaceIconName : string;
  surfaceType : option string
}.

(** What the fragment renders: each menu with its options, or nothing. *)
Record ToolboxView := mkToolboxView {
  surfaceMenu : option (list SurfaceOption);
  menu : option (list MenuOption)
}.

(** [options[item]?.visible ? { id, action, label, icon } : null] *)
Definition toMenuOption (options : gmap string ToolOption) (item : string)
    : option MenuOption :=
  match options !! item with
  | Some o =>
      if visible o
      then Some {| menuId := id o;
                   menuAction := onClick o;
                   menuLabel := label o;
                   menuIcon := iconName o |}
      else None
  | None => None
  end.

(** [options[item]?.visible ? { id, onClick, label, iconName, type } : null] *)
Definition toSurfaceOption (options : gmap string ToolOption) (item : string)
    : option SurfaceOption :=
  match options !! item with
  | Some o =>
      if visible o
      then Some {| surfaceId := id o;
                   surfaceOnClick := onClick o;
                   surfaceLabel := label o;
                   surfaceIconName := iconName o;
                   surfaceType := type o |}
      else None
  | None => None
  end.

(** [menuItems?.map(...).filter((option) => option !== null)] *)
Definition menuOptions (options : gmap string ToolOption)
    (menuItems : option (list string)) : option (list MenuOption) :=
  (fun items => Js.dropNull (map (toMenuOption options) items)) <$> menuItems.

(** [surfaceItems?.map(...).filter((option) => option !== null)] *)
Definition surfaceOptions (options : gmap string ToolOption)
    (surfaceItems : option (list string)) : option (list SurfaceOption) :=
  (fun items => Js.dropNull (map (toSurfaceOption options) items)) <$> surfaceItems.

(** [opts?.length > 0 && <M options={opts} />] *)
Definition whenNonEmpty {A : Type} (opts : option (list A)) : option (list A) :=
  match opts with
  | Some (x :: rest) => Some (x :: rest)
  | _ => None
  end.

(** The items the toolbox shows, after the registry's configuration has
    been laid over the built-in one. *)
Record Items := mkItems {
  shownSurfaceItems : option (list string);
  shownMenuItems : option (list string)
}.

(** [configOverrides.optionConfig?.surfaceItems || optionConfig.surfaceItems]
    and the same for [menuItems]. The member access on [configOverrides]
    is not guarded: it throws when [configOverrides] is [undefined]. *)
Definition selectItems (configOverrides : option ConfigOverrides)
    (builtin : OptionConfig) : Render Items :=
  match configOverrides with
  | None => throwTypeError "Cannot read properties of undefined (reading 'optionConfig')"
  | Some cfg =>
      let surfaceItems :=
        Js.orElse (optionConfig cfg ≫= surfaceItems) (surfaceItems builtin) in
      let menuItems :=
        Js.orElse (optionConfig cfg ≫= menuItems) (menuItems builtin) in
      mret {| shownSurfaceItems := surfaceItems; shownMenuItems := menuItems |}
  end.

(** The fragment of [MessageToolbox] given in the guide. [options] is the
    component's table of toolbox options and [optionConfig] its built-in
    configuration; neither is among the sources. *)
Definition MessageToolbox (options : gmap string ToolOption)
    (optionConfig : OptionConfig)
    (className : option string) (style : option StyleObject)
    : Render ToolboxView :=
  overrides ← Overrides.useComponentOverrides "MessageToolbox" className style;
  items ← selectItems (configOverrides overrides) optionConfig;
  let menuOptions := menuOptions options (shownMenuItems items) in
  let surfaceOptions := surfaceOptions options (shownSurfaceItems items) in
  mret {| surfaceMenu := whenNonEmpty surfaceOptions;
          menu := whenNonEmpty menuOptions |}.

End Toolbox.

(* ===================================================================== *)
(** ** MessageHeader                                                      *)
(* ===================================================================== *)

Module Header.
Import OverrideData MessageData.

(** The [span] that shows the user name. *)
Record UserNameBox := mkUserNameBox {
  isElement : string;
  css : Css;
  className : string;
  style : option StyleObject
}.

(** [const displayNameVariant = variantOverrides || 'Normal';] *)
Definition displayNameVariant (variantOverrides : option string) : string :=
  match variantOverrides with
  | Some tag => if Js.truthy (Some tag) then tag else "Normal"
  | None => "Normal"
  end.

(** The fragment of [MessageHeader] given in the guide. The style sheet
    entry [styles.userName] and the function [getDisplayNameColor] are
    not among the sources. *)
Definition MessageHeaderUserName (userNameCss : Css)
    (getDisplayNameColor : string -> string) (message : MessageObject)
    : Render UserNameBox :=
  overrides ← Overrides.useComponentOverrides "MessageHeader" None None;
  let displayNameVariant := displayNameVariant (variantOverrides overrides) in
  mret {| isElement := "span";
          css := userNameCss;
          className :=
            Overrides.appendClassNames "ec-message-header-username"
              (classNames overrides);
          style :=
            if String.eqb displayNameVariant "colorize"
            then Some {[ "color" := getDisplayNameColor (username (u message)) ]}
            else None |}.

End Header.

(* ===================================================================== *)
(** ** Message                                                            *)
(* ===================================================================== *)

Module MessageView.
Import MessageData.

(** What [useMessageStyles] returns, as far as [Message] reads it. *)
Record MessageStyles := mkMessageStyles {
  main : Css;
  pendingMessageBody : Css
}.

(** A variant's style sheet: [useBubbleStyles] returns one, and [{}] is
    the empty one. [Message] reads [name] and [messageParent]; the other
    entries go to the children untouched. *)
Record VariantStyles := mkVariantStyles {
  name : option string;
  messageParent : option Css;
  others : gmap string Css
}.

(** [{}] *)
Definition emptyStyles : VariantStyles :=
  {| name := None; messageParent := None; others := ∅ |}.

(** The two style hooks of [Message], [./Message.styles] and
    [./BubbleVariant/useBubbleStyles]; neither is among the sources. They
    read the environment (the theme). *)
Record StyleHooks := mkStyleHooks {
  useMessageStyles : Env -> MessageStyles;
  useBubbleStyles : Env -> bool -> VariantStyles
}.

(** The props of [Message]; an absent prop takes its default. *)
Record Props := mkProps {
  message : MessageObject;
  sequential : option bool;
  lastSequential : option bool;
  newDay : option bool;
  variantOverrides : option string
}.

(** [<MessageHeader message={...} {...(cond && { showDisplayName })} />] *)
Record MessageHeaderElement := mkMessageHeaderElement {
  headerMessage : MessageObject;
  showDisplayName : option bool
}.

(** [<MessageToolbox message={...} variantStyles={...} />] *)
Record MessageToolboxElement := mkMessageToolboxElement {
  toolboxMessage : MessageObject;
  toolboxVariantStyles : VariantStyles
}.

(** [<MessageBody ...>] with its two children. *)
Record MessageBodyElement := mkMessageBodyElement {
  bodyClassName : string;
  bodyId : string;
  bodyCss : option Css;
  bodyVariantStyles : VariantStyles;
  isText : bool;
  bodySequential : bool;
  bodyLastSequential : bool;
  markdownBody : MessageObject;
  markdownIsReaction : bool;
  toolbox : option MessageToolboxElement
}.

(** The tree [Message] returns. The divider holds the time stamp that
    [format] of [date-fns] turns into its text; [format] is called while
    the tree is built. *)
Record MessageTree := mkMessageTree {
  boxClassName : string;
  boxCss : Css;
  avatarMessage : MessageObject;
  avatarSequential : bool;
  containerVariantStyles : VariantStyles;
  header : option MessageHeaderElement;
  body : option MessageBodyElement;
  divider : option Z
}.

(** [!message.t]: an absent or empty type tag. *)
Definition noType (m : MessageObject) : bool := negb (Js.truthy (t m)).

(** [variantStyles?.name?.includes("bubble")] *)
Definition namedBubble (variantStyles : VariantStyles) : bool :=
  match name variantStyles with
  | Some n => Js.includes n "bubble"
  | None => false
  end.

(** [new Date(ts)] is a date only for a time value of at most 8.64e15
    milliseconds either way; outside of it the date is invalid. *)
Definition validTime (ts : Z) : bool :=
  (Z.abs ts <=? 8640000000000000)%Z.

(** [throw new RangeError(...)] *)
Definition throwRangeError {A : Type} (what : string) : Render A :=
  fun env => (Throw ("RangeError: " ++ what), env).

(** [format(new Date(ts), "MMMM d, yyyy")]: [format] throws on an invalid
    date; for a valid one the text it gives is known by the time stamp. *)
Definition formatDate (ts : Z) : Render Z :=
  if validTime ts then mret ts else throwRangeError "Invalid time value".

(** The date of the divider can be formatted: no divider is asked for,
    or the time stamp is a valid time value. *)
Definition dividerFormats (props : Props) : bool :=
  negb (default false (newDay props)) || validTime (ts (message props)).

(** The component [Message]. *)
Definition Message (hooks : StyleHooks) (props : Props) : Render MessageTree :=
  let message := message props in
  let sequential := default false (sequential props) in
  let lastSequential := default false (lastSequential props) in
  let newDay := default false (newDay props) in
  let variantOverrides := default "default" (variantOverrides props) in
  let isMe := String.eqb (username (u message)) "spiral_memory" in
  styles ← reads (useMessageStyles hooks);
  bubbleStyles ← reads (fun env => useBubbleStyles hooks env isMe);
  let shouldShowHeader := negb sequential in
  let variantStyles :=
    if String.eqb variantOverrides "bubble" then bubbleStyles else emptyStyles in
  dividerDate ← (if newDay
                 then date ← formatDate (ts message); mret (Some date)
                 else mret None);
  mret {| boxClassName := "ec-message";
          boxCss := default (main styles) (messageParent variantStyles);
          avatarMessage := message;
          avatarSequential := sequential;
          containerVariantStyles := variantStyles;
          header :=
            if shouldShowHeader
            then Some {| headerMessage := message;
                         showDisplayName :=
                           if namedBubble variantStyles
                           then Some (negb isMe)
                           else None |}
            else None;
          body :=
            if noType message
            then Some {| bodyClassName := "ec-message-body";
                         bodyId := "ec-message-body-" ++ _id message;
                         bodyCss :=
                           if isPending message
                           then Some (pendingMessageBody styles)
                           else None;
                         bodyVariantStyles := variantStyles;
                         isText := bool_decide (is_Some (md message));
                         bodySequential := sequential;
                         bodyLastSequential := lastSequential;
                         markdownBody := message;
                         markdownIsReaction := false;
                         toolbox :=
                           if noType message
                           then Some {| toolboxMessage := message;
                                        toolboxVariantStyles := variantStyles |}
                           else None |}
            else None;
          divider := dividerDate |}.

End MessageView.

(* ===================================================================== *)
(** ** Sample data                                                        *)
(* ===================================================================== *)

(** Concrete themes, registries and tables on which the components are
    run in the examples below. *)
Module Samples.
Import ThemeData OverrideData MessageData.

Definition lightColors : ColorSet :=
  {[ "background" := "#ffffff"; "foreground" := "#1f2329"; "border" := "#e4e7ea" ]}.

Definition darkColors : ColorSet :=
  {[ "background" := "#1f2329"; "foreground" := "#ffffff"; "border" := "#404754" ]}.

(** A theme with both schemes, standing for the built-in default theme. *)
Definition defaultTheme : Theme :=
  {| ThemeData.name := "default";
     schemes := Some {[ "light" := lightColors; "dark" := darkColors ]};
     radius := "0.2rem" |}.

(** A host theme that defines the light scheme only. *)
Definition lightOnlyTheme : Theme :=
  {| ThemeData.name := "host";
     schemes := Some {[ "light" := lightColors ]};
     radius := "0" |}.

(** The context value of a provider that holds [t] and [m]: the colours
    are read off the theme as in the accessor, the setters replace the
    provider's cells. *)
Definition provided (t : Theme) (m : string) : ThemeContextValue :=
  {| theme := t;
     mode := m;
     colors := ThemeAccessor.schemeOf t m;
     invertedColors := ThemeAccessor.schemeOf t (ThemeAccessor.invertMode m);
     setMode := fun m' st => {| activeTheme := activeTheme st; activeMode := m' |};
     setTheme := fun t' st => {| activeTheme := t'; activeMode := activeMode st |} |}.

(** No provider, empty registry. *)
Definition bareEnv : Env :=
  {| themeContext := None; overrideRegistry := ∅ |}.

(** A provider in light mode over the light-only theme. *)
Definition lightOnlyEnv : Env :=
  {| themeContext := Some (provided lightOnlyTheme "light");
     overrideRegistry := ∅ |}.

(** [{ Message: { variantOverrides: "bubble" } }] *)
Definition bubbleRegistry : gmap string OverrideEntry :=
  {[ "Message" :=
       {| entryStyleOverrides := None;
          entryClassNames := None;
          entryVariantOverrides := Some "bubble";
          entryConfigOverrides := None |} ]}.

(** [{ configOverrides: { optionConfig: { menuItems: ["reply"] } } }] *)
Definition replyOnlyEntry : OverrideEntry :=
  {| entryStyleOverrides := None;
     entryClassNames := None;
     entryVariantOverrides := None;
     entryConfigOverrides :=
       Some {| optionConfig :=
                 Some {| surfaceItems := None; menuItems := Some ["reply"] |} |} |}.

(** [{ MessageToolbox: { configOverrides: ... } }] *)
Definition replyOnlyRegistry : gmap string OverrideEntry :=
  {[ "MessageToolbox" := replyOnlyEntry ]}.

Definition replyOption (isVisible : bool) : Toolbox.ToolOption :=
  {| Toolbox.label := "Reply in thread";
     Toolbox.id := "reply";
     Toolbox.onClick := "handleOpenThread";
     Toolbox.iconName := "thread";
     Toolbox.visible := isVisible;
     Toolbox.type := None |}.

Definition quoteOption : Toolbox.ToolOption :=
  {| Toolbox.label := "Quote";
     Toolbox.id := "quote";
     Toolbox.onClick := "handleQuote";
     Toolbox.iconName := "quote";
     Toolbox.visible := true;
     Toolbox.type := None |}.

Definition starOption : Toolbox.ToolOption :=
  {| Toolbox.label := "Star";
     Toolbox.id := "star";
     Toolbox.onClick := "handleStarMessage";
     Toolbox.iconName := "star";
     Toolbox.visible := true;
     Toolbox.type := None |}.

(** An [options] table in which every option is visible. *)
Definition visibleOptions : gmap string Toolbox.ToolOption :=
  {[ "reply" := replyOption true; "quote" := quoteOption; "star" := starOption ]}.

(** An [options] table in which the reply option is not visible. *)
Definition hiddenReplyOptions : gmap string Toolbox.ToolOption :=
  {[ "reply" := replyOption false; "quote" := quoteOption; "star" := starOption ]}.

(** A built-in [optionConfig]. *)
Definition builtinOptionConfig : OptionConfig :=
  {| surfaceItems := Some ["reply"; "quote"];
     menuItems := Some ["star"; "quote"; "reply"] |}.

Definition messageStyles : MessageView.MessageStyles :=
  {| MessageView.main := "display: flex; padding: 0.25rem 2rem;";
     MessageView.pendingMessageBody := "opacity: 0.4;" |}.

Definition bubbleStyles (isMe : bool) : MessageView.VariantStyles :=
  {| MessageView.name := Some "bubble";
     MessageView.messageParent :=
       Some (if isMe
             then "display: flex; flex-direction: row-reverse;"
             else "display: flex; flex-direction: row;");
     MessageView.others := {[ "messageBody" := "border-radius: 1rem;" ]} |}.

Definition styleHooks : MessageView.StyleHooks :=
  {| MessageView.useMessageStyles := fun _ => messageStyles;
     MessageView.useBubbleStyles := fun _ isMe => bubbleStyles isMe |}.

Definition messageFrom (user : string) : MessageObject :=
  {| _id := "m1";
     u := {| username := user |};
     t := None;
     md := Some ["hello"];
     isPending := false;
     ts := 1700000000000%Z |}.

(** [<Message message={...} />]: every other prop is left unset. *)
Definition onlyMessage (m : MessageObject) : MessageView.Props :=
  {| MessageView.message := m;
     MessageView.sequential := None;
     MessageView.lastSequential := None;
     MessageView.newDay := None;
     MessageView.variantOverrides := None |}.

(** [<Message message={...} variantOverrides="bubble" />] *)
Definition bubbleMessage (m : MessageObject) : MessageView.Props :=
  {| MessageView.message := m;
     MessageView.sequential := None;
     MessageView.lastSequential := None;
     MessageView.newDay := None;
     MessageView.variantOverrides := Some "bubble" |}.

(** No provider; the registry asks for bubbles on [Message]. *)
Definition bubbleEnv : Env :=
  {| themeContext := None; overrideRegistry := bubbleRegistry |}.

End Samples.

(* ===================================================================== *)
(** ** Style sheets written as css templates                              *)
(* ===================================================================== *)

Module CssTemplate.

(** A piece of the value of a declaration in a [css] template: text of
    the template, or the value of an interpolated expression as the
    expression gives it ([undefined] included; turning it into text is
    Emotion's work). *)
Inductive Part : Type :=
| Text (text : string)
| Hole (value : option string).

(** One declaration [property: value;]. *)
Record Declaration := mkDeclaration {
  property : string;
  value : list Part
}.

(** A [css] template: its declarations in the order written. *)
Definition Block := list Declaration.

(** A declaration without interpolation. *)
Definition plain (property value : string) : Declaration :=
  {| property := property; value := [Text value] |}.

(** The values interpolated into a block, in order. *)
Definition holes (block : Block) : list (option string) :=
  flat_map
    (fun d =>
       flat_map (fun part => match part with
                             | Text _ => []
                             | Hole v => [v]
                             end) (value d))
    block.

End CssTemplate.

(** The example of a themed component in the guide:
    [const { colors } = useTheme(); const main = css`...`]. *)
Module CssExample.
Import ThemeData CssTemplate.

Definition main (DefaultTheme : Theme) : Render Block :=
  accessor ← ThemeAccessor.useTheme DefaultTheme;
  match colors accessor with
  | None => throwTypeError "Cannot read properties of undefined (reading 'border')"
  | Some colors =>
      mret [ plain "margin" "0.2rem 2rem";
             plain "display" "block";
             plain "max-height" "10rem";
             plain "overflow" "scroll";
             plain "overflow-x" "hidden";
             {| property := "border";
                value := [Text "1px solid "; Hole (colors !! "border")] |};
             plain "border-radius" "0.2rem";
             {| property := "color";
                value := [Hole (colors !! "secondaryForeground")] |} ]
  end.

End CssExample.

(** [views/PreviewMessage/PreviewMessage.styles.js] *)
Module PreviewMessage.
Import CssTemplate.

(** The argument of [getPreviewMessageStyles], as far as it is read. *)
Record PreviewTheme := mkPreviewTheme {
  colors : option ColorSet;
  radius : option string
}.

Record PreviewStyles := mkPreviewStyles {
  messageContainer : Block;
  avatarContainer : Block;
  message : Block;
  actionBtn : Block
}.

(** [getPreviewMessageStyles]. The first interpolation,
    [theme.colors.background], throws when [theme.colors] is undefined. *)
Definition getPreviewMessageStyles (theme : PreviewTheme) : Outcome PreviewStyles :=
  match colors theme with
  | None => Throw "TypeError: Cannot read properties of undefined (reading 'background')"
  | Some themeColors =>
      let styles :=
        {| messageContainer :=
             [ plain "margin" "0.2rem 2rem";
               plain "position" "relative";
               plain "font-size" "0.85rem";
               {| property := "background-color";
                  value := [Hole (themeColors !! "background")] |};
               {| property := "color";
                  value := [Hole (themeColors !! "foreground")] |};
               plain "padding" "0.5rem";
               plain "z-index" "1200";
               {| property := "border";
                  value := [Text "1px solid "; Hole (themeColors !! "border")] |};
               {| property := "border-radius";
                  value := [Hole (radius theme)] |};
               plain "max-width" "100%";
               plain "box-sizing" "border-box" ];
           avatarContainer :=
             [ plain "padding" "0.25rem";
               plain "display" "flex";
               plain "gap" "0.5rem" ];
           message :=
             [ plain "padding" "0.25rem";
               plain "overflow-wrap" "break-word";
               plain "word-break" "break-word";
               plain "white-space" "normal";
               plain "width" "100%" ];
           actionBtn :=
             [ plain "position" "absolute";
               plain "top" "0.75rem";
               plain "right" "0.75rem" ] |} in
      Ok styles
  end.

End PreviewMessage.

(* ===================================================================== *)
(** ** Running a render                                                   *)
(* ===================================================================== *)

Section RenderLaws.
Context {A B : Type}.

Lemma bind_reads (f : Env -> A) (k : A -> Render B) (env : Env) :
  (reads f ≫= k) env = k (f env) env.
Proof. reflexivity. Qed.

Lemma bind_ok (m : Render A) (k : A -> Render B) (env env' : Env) (a : A) :
  m env = (Ok a, env') -> (m ≫= k) env = k a env'.
Proof. intros Hm. unfold mbind, render_bind. now rewrite Hm. Qed.

Lemma bind_throw (m : Render A) (k : A -> Render B) (env env' : Env) (e : string) :
  m env = (Throw e, env') -> (m ≫= k) env = (Throw e, env').
Proof. intros Hm. unfold mbind, render_bind. now rewrite Hm. Qed.

Lemma ret_run (a : A) (env : Env) : (mret a : Render A) env = (Ok a, env).
Proof. reflexivity. Qed.

End RenderLaws.

(** Unfold the monad of hooks in the goal. *)
Ltac run_render :=
  unfold useContext_ThemeContext;
  unfold mbind, render_bind, mret, render_ret, reads, throwTypeError;
  cbn beta iota.

(* ===================================================================== *)
(** ** Theme accessor: properties                                         *)
(* ===================================================================== *)

Section ThemeAccessorFacts.
Import ThemeData ThemeAccessor.

Lemma invertMode_light : invertMode "light" = "dark".
Proof. reflexivity. Qed.

Lemma invertMode_dark : invertMode "dark" = "light".
Proof. reflexivity. Qed.

(** Whatever the mode, the result is one of the two tags. *)
Lemma invertMode_range (m : string) :
  invertMode m = "light" \/ invertMode m = "dark".
Proof. unfold invertMode. destruct (String.eqb m "light"); auto. Qed.

(** Outside the two tags the function is no involution. *)
Lemma invertMode_other_mode :
  invertMode (invertMode "sepia") = "dark".
Proof. reflexivity. Qed.

(** C5. [invertMode] is total on the closed set of the two modes light
    and dark: it sends light to dark and dark to light, stays inside the
    set, and applying it twice gives the mode back. *)
Theorem invertMode_involution (m : string) :
  m = "light" \/ m = "dark" ->
  invertMode "light" = "dark"
  /\ invertMode "dark" = "light"
  /\ (invertMode m = "light" \/ invertMode m = "dark")
  /\ invertMode (invertMode m) = m.
Proof.
  intros [-> | ->]; repeat split; try reflexivity.
  - right; reflexivity.
  - left; reflexivity.
Qed.

Lemma invertMode_involution_witness :
  invertMode (invertMode "dark") = "dark".
Proof.
  apply (invertMode_involution "dark").
  right; reflexivity.
Defined.

Lemma useTheme_run_none (DefaultTheme : Theme) (env : Env) :
  themeContext env = None ->
  useTheme DefaultTheme env
  = (Ok {| theme := DefaultTheme;
           mode := "light";
           colors := schemeOf DefaultTheme "light";
           invertedColors := schemeOf DefaultTheme "dark";
           setMode := noop;
           setTheme := noop |}, env).
Proof.
  intros Hctx. unfold useTheme. run_render. now rewrite Hctx.
Qed.

Lemma useTheme_run_some (DefaultTheme : Theme) (env : Env) (ctx : ThemeContextValue) :
  themeContext env = Some ctx ->
  useTheme DefaultTheme env = (Ok ctx, env).
Proof.
  intros Hctx. unfold useTheme. run_render. now rewrite Hctx.
Qed.

(** C3. Without a theme context [useTheme] returns the built-in default
    theme, the mode light, the default theme's light scheme as [colors],
    its dark scheme as [invertedColors], and setters that do nothing; the
    environment is left as it was. *)
Theorem useTheme_without_provider (DefaultTheme : Theme) (env : Env) :
  themeContext env = None ->
  exists r : ThemeContextValue,
    useTheme DefaultTheme env = (Ok r, env)
    /\ theme r = DefaultTheme
    /\ mode r = "light"
    /\ colors r = schemes DefaultTheme ≫= (fun byMode => byMode !! "light")
    /\ invertedColors r = schemes DefaultTheme ≫= (fun byMode => byMode !! "dark")
    /\ (forall (m : string) (st : ProviderState), setMode r m st = st)
    /\ (forall (t : Theme) (st : ProviderState), setTheme r t st = st).
Proof.
  intros Hctx. eexists. split.
  - apply useTheme_run_none, Hctx.
  - cbn. repeat split; reflexivity.
Qed.

Lemma useTheme_without_provider_witness :
  exists r : ThemeContextValue,
    useTheme Samples.defaultTheme Samples.bareEnv = (Ok r, Samples.bareEnv)
    /\ mode r = "light"
    /\ colors r = Some Samples.lightColors
    /\ invertedColors r = Some Samples.darkColors.
Proof.
  destruct (useTheme_without_provider Samples.defaultTheme Samples.bareEnv eq_refl)
    as (r & Hrun & _ & Hmode & Hcolors & Hinverted & _).
  exists r. split; [exact Hrun |]. split; [exact Hmode |].
  split; [rewrite Hcolors | rewrite Hinverted]; reflexivity.
Defined.

(** C4. With a theme context [useTheme] returns that context value as it
    is. So for a context built by a provider in light mode over a theme
    without a dark scheme, the [invertedColors] returned is undefined: the
    call still succeeds, and the default theme's dark scheme is not put in
    its place. *)
Theorem useTheme_with_provider (DefaultTheme : Theme) (env : Env)
    (ctx : ThemeContextValue) :
  themeContext env = Some ctx ->
  useTheme DefaultTheme env = (Ok ctx, env)
  /\ (builtByProvider ctx ->
      mode ctx = "light" ->
      schemes (theme ctx) ≫= (fun byMode => byMode !! "dark") = None ->
      exists r : ThemeContextValue,
        useTheme DefaultTheme env = (Ok r, env) /\ invertedColors r = None).
Proof.
  intros Hctx. split.
  - apply useTheme_run_some, Hctx.
  - intros [_ Hinv] Hmode Hdark. exists ctx. split.
    + apply useTheme_run_some, Hctx.
    + rewrite Hinv, Hmode. exact Hdark.
Qed.

Lemma useTheme_with_provider_witness :
  useTheme Samples.defaultTheme Samples.lightOnlyEnv
  = (Ok (Samples.provided Samples.lightOnlyTheme "light"), Samples.lightOnlyEnv)
  /\ exists r : ThemeContextValue,
       useTheme Samples.defaultTheme Samples.lightOnlyEnv = (Ok r, Samples.lightOnlyEnv)
       /\ invertedColors r = None.
Proof.
  destruct (useTheme_with_provider Samples.defaultTheme Samples.lightOnlyEnv
              (Samples.provided Samples.lightOnlyTheme "light") eq_refl)
    as [Hsame Hdark].
  split; [exact Hsame |].
  apply Hdark.
  - split; reflexivity.
  - reflexivity.
  - reflexivity.
Defined.

(** The qualifier on the mode matters: a provider in dark mode over the
    same theme hands out the light scheme as [invertedColors], and it is
    [colors] that is undefined. *)
Lemma useTheme_dark_mode_light_only :
  exists r : ThemeContextValue,
    useTheme Samples.defaultTheme
      (mkEnv (Some (Samples.provided Samples.lightOnlyTheme "dark")) ∅)
    = (Ok r, mkEnv (Some (Samples.provided Samples.lightOnlyTheme "dark")) ∅)
    /\ colors r = None
    /\ invertedColors r = Some Samples.lightColors.
Proof.
  eexists. split; [apply useTheme_run_some; reflexivity |].
  split; reflexivity.
Qed.

End ThemeAccessorFacts.

(* ===================================================================== *)
(** ** Override resolver: properties                                      *)
(* ===================================================================== *)

Section ResolverFacts.
Import OverrideData Overrides.

Variables (componentName : string) (className : option string)
          (style : option StyleObject).

(** What the resolver computes from the registry's answer. *)
Lemma useComponentOverrides_run (env : Env) :
  useComponentOverrides componentName className style env
  = (Ok match overrideRegistry env !! componentName with
        | None => noOverrides
        | Some entry =>
            {| styleOverrides := entryStyleOverrides entry;
               classNames := entryClassNames entry;
               variantOverrides := entryVariantOverrides entry;
               configOverrides := entryConfigOverrides entry |}
        end, env).
Proof.
  unfold useComponentOverrides. rewrite bind_reads.
  destruct (overrideRegistry env !! componentName); reflexivity.
Qed.

Lemma useComponentOverrides_total (env : Env) :
  exists r : ResolvedOverride,
    useComponentOverrides componentName className style env = (Ok r, env).
Proof. eexists. apply useComponentOverrides_run. Qed.

Lemma useComponentOverrides_absent (env : Env) :
  overrideRegistry env !! componentName = None ->
  useComponentOverrides componentName className style env = (Ok noOverrides, env).
Proof. intros Habsent. now rewrite useComponentOverrides_run, Habsent. Qed.

Lemma useComponentOverrides_present (env : Env) (entry : OverrideEntry) :
  overrideRegistry env !! componentName = Some entry ->
  useComponentOverrides componentName className style env
  = (Ok {| styleOverrides := entryStyleOverrides entry;
           classNames := entryClassNames entry;
           variantOverrides := entryVariantOverrides entry;
           configOverrides := entryConfigOverrides entry |}, env).
Proof. intros Hentry. now rewrite useComponentOverrides_run, Hentry. Qed.

(** C1. The resolver returns a result for every component name and
    never throws. For a name the registry does not list, every field of
    the result is undefined; and a registry without the entry resolves as
    one that lists the name with an entry whose fields are all left out. *)
Theorem resolver_total_and_empty_when_absent (env : Env) :
  (exists r : ResolvedOverride,
      useComponentOverrides componentName className style env = (Ok r, env))
  /\ (overrideRegistry env !! componentName = None ->
      exists r : ResolvedOverride,
        useComponentOverrides componentName className style env = (Ok r, env)
        /\ styleOverrides r = None
        /\ classNames r = None
        /\ variantOverrides r = None
        /\ configOverrides r = None)
  /\ fst (useComponentOverrides componentName className style
            (withRegistry env (delete componentName (overrideRegistry env))))
     = fst (useComponentOverrides componentName className style
              (withRegistry env
                 (<[componentName := emptyEntry]> (overrideRegistry env)))).
Proof.
  split; [apply useComponentOverrides_total |]. split.
  - intros Habsent. exists noOverrides. split.
    + apply useComponentOverrides_absent, Habsent.
    + repeat split; reflexivity.
  - rewrite !useComponentOverrides_run. cbn [fst withRegistry overrideRegistry].
    now rewrite lookup_delete_eq, lookup_insert_eq.
Qed.

(** C9. Two calls of the resolver with the same arguments give equal
    results as long as the registry is the same at both calls, whatever
    else of the environment differs; and called twice in a row in one
    render, it gives the same result twice and leaves the environment,
    the registry with it, as it was. *)
Theorem resolver_deterministic (env1 env2 : Env) :
  overrideRegistry env1 = overrideRegistry env2 ->
  exists r : ResolvedOverride,
    useComponentOverrides componentName className style env1 = (Ok r, env1)
    /\ useComponentOverrides componentName className style env2 = (Ok r, env2)
    /\ (first ← useComponentOverrides componentName className style;
        second ← useComponentOverrides componentName className style;
        mret (first, second)) env1
       = (Ok (r, r), env1).
Proof.
  intros Hregistry.
  destruct (useComponentOverrides_total env1) as [r Hrun].
  exists r. split; [exact Hrun |]. split.
  - rewrite useComponentOverrides_run in Hrun |- *.
    rewrite <- Hregistry. congruence.
  - rewrite (bind_ok _ _ _ _ _ Hrun), (bind_ok _ _ _ _ _ Hrun).
    reflexivity.
Qed.

End ResolverFacts.

Lemma resolver_total_and_empty_when_absent_witness :
  exists r : OverrideData.ResolvedOverride,
    Overrides.useComponentOverrides "MessageBody" (Some "mine") None
      (mkEnv None Samples.bubbleRegistry)
    = (Ok r, mkEnv None Samples.bubbleRegistry)
    /\ OverrideData.styleOverrides r = None
    /\ OverrideData.classNames r = None
    /\ OverrideData.variantOverrides r = None
    /\ OverrideData.configOverrides r = None.
Proof.
  apply (resolver_total_and_empty_when_absent "MessageBody" (Some "mine") None
           (mkEnv None Samples.bubbleRegistry)).
  reflexivity.
Defined.

(** The same registry under no provider and under a provider. *)
Lemma resolver_deterministic_witness :
  exists r : OverrideData.ResolvedOverride,
    Overrides.useComponentOverrides "Message" None None Samples.bubbleEnv
    = (Ok r, Samples.bubbleEnv)
    /\ Overrides.useComponentOverrides "Message" None None
         (withRegistry Samples.lightOnlyEnv Samples.bubbleRegistry)
       = (Ok r, withRegistry Samples.lightOnlyEnv Samples.bubbleRegistry)
    /\ OverrideData.variantOverrides r = Some "bubble".
Proof.
  destruct (resolver_deterministic "Message" None None Samples.bubbleEnv
              (withRegistry Samples.lightOnlyEnv Samples.bubbleRegistry) eq_refl)
    as (r & Hfirst & Hsecond & _).
  exists r. split; [exact Hfirst |]. split; [exact Hsecond |].
  pose proof (useComponentOverrides_run "Message" None None Samples.bubbleEnv)
    as Hrun.
  rewrite Hfirst in Hrun. injection Hrun as ->. reflexivity.
Defined.

(* ===================================================================== *)
(** ** MessageToolbox: properties                                         *)
(* ===================================================================== *)

Section ToolboxFacts.
Import OverrideData Toolbox.

Lemma dropNull_map_nil {A B : Type} (f : A -> option B) :
  Js.dropNull (map f []) = [].
Proof. reflexivity. Qed.

Lemma dropNull_map_cons {A B : Type} (f : A -> option B) (x : A) (xs : list A) :
  Js.dropNull (map f (x :: xs))
  = match f x with
    | Some y => y :: Js.dropNull (map f xs)
    | None => Js.dropNull (map f xs)
    end.
Proof. reflexivity. Qed.

(** Mapping and then dropping the nulls never yields more options than
    there are items. *)
Lemma dropNull_map_length {A B : Type} (f : A -> option B) (xs : list A) :
  length (Js.dropNull (map f xs)) <= length xs.
Proof.
  induction xs as [| x xs IH]; [reflexivity |].
  rewrite dropNull_map_cons. destruct (f x); cbn [length]; lia.
Qed.

(** Every menu option comes from an item of the list that names a
    visible entry of the [options] table. *)
Lemma menu_option_sound (options : gmap string ToolOption)
    (items : list string) (mo : MenuOption) :
  In mo (Js.dropNull (map (toMenuOption options) items)) ->
  exists (item : string) (o : ToolOption),
    In item items
    /\ options !! item = Some o
    /\ visible o = true
    /\ mo = {| menuId := id o;
               menuAction := onClick o;
               menuLabel := label o;
               menuIcon := iconName o |}.
Proof.
  induction items as [| item items IH]; [intros [] |].
  rewrite dropNull_map_cons. unfold toMenuOption at 1.
  destruct (options !! item) as [o |] eqn:Hitem.
  - destruct (visible o) eqn:Hvisible.
    + intros [<- | Hrest].
      * exists item, o. repeat split; auto using in_eq.
      * destruct (IH Hrest) as (item' & o' & Hin & Hrest').
        exists item', o'. split; [now right | exact Hrest'].
    + intros Hrest. destruct (IH Hrest) as (item' & o' & Hin & Hrest').
      exists item', o'. split; [now right | exact Hrest'].
  - intros Hrest. destruct (IH Hrest) as (item' & o' & Hin & Hrest').
    exists item', o'. split; [now right | exact Hrest'].
Qed.

(** And every item that names a visible entry gives a menu option. *)
Lemma menu_option_complete (options : gmap string ToolOption)
    (items : list string) (item : string) (o : ToolOption) :
  In item items ->
  options !! item = Some o ->
  visible o = true ->
  In {| menuId := id o;
        menuAction := onClick o;
        menuLabel := label o;
        menuIcon := iconName o |}
     (Js.dropNull (map (toMenuOption options) items)).
Proof.
  intros Hin Hitem Hvisible.
  induction items as [| item' items IH]; [destruct Hin |].
  rewrite dropNull_map_cons.
  destruct Hin as [-> | Hin].
  - unfold toMenuOption at 1. rewrite Hitem, Hvisible. apply in_eq.
  - destruct (toMenuOption options item'); [right |]; apply IH, Hin.
Qed.

Lemma selectItems_run (cfg : ConfigOverrides) (builtin : OptionConfig) (env : Env) :
  selectItems (Some cfg) builtin env
  = (Ok {| shownSurfaceItems :=
             Js.orElse (optionConfig cfg ≫= surfaceItems) (surfaceItems builtin);
           shownMenuItems :=
             Js.orElse (optionConfig cfg ≫= menuItems) (menuItems builtin) |},
     env).
Proof. reflexivity. Qed.

(** With the spec's resolver an unlisted component gets an undefined
    [configOverrides], and the unguarded member access of the fragment
    then throws. *)
Lemma selectItems_undefined_throws (builtin : OptionConfig) (env : Env) :
  exists e : string, selectItems None builtin env = (Throw e, env).
Proof. eexists. reflexivity. Qed.

(** Given a [configOverrides] object, each of the two item lists is
    chosen by itself: the list under [configOverrides.optionConfig] when
    it is defined (the empty list too, and nothing of the built-in list
    is merged in), else the built-in list of the same name. *)
Theorem toolbox_items_first_defined_wins
    (cfg : ConfigOverrides) (builtin : OptionConfig) (env : Env) :
  exists items : Items,
    selectItems (Some cfg) builtin env = (Ok items, env)
    /\ (forall (oc : OptionConfig) (l : list string),
          optionConfig cfg = Some oc -> surfaceItems oc = Some l ->
          shownSurfaceItems items = Some l)
    /\ (forall (oc : OptionConfig) (l : list string),
          optionConfig cfg = Some oc -> menuItems oc = Some l ->
          shownMenuItems items = Some l)
    /\ (optionConfig cfg ≫= surfaceItems = None ->
        shownSurfaceItems items = surfaceItems builtin)
    /\ (optionConfig cfg ≫= menuItems = None ->
        shownMenuItems items = menuItems builtin).
Proof.
  eexists. split; [apply selectItems_run |].
  cbn [shownSurfaceItems shownMenuItems].
  repeat split.
  - intros oc l -> Hl. cbn. now rewrite Hl.
  - intros oc l -> Hl. cbn. now rewrite Hl.
  - intros ->. reflexivity.
  - intros ->. reflexivity.
Qed.

(** The registry gives the menu items only: the menu list is the
    registry's, the surface list the built-in one. *)
Lemma toolbox_items_first_defined_wins_witness :
  exists items : Items,
    selectItems (entryConfigOverrides Samples.replyOnlyEntry)
      Samples.builtinOptionConfig Samples.bareEnv
    = (Ok items, Samples.bareEnv)
    /\ shownMenuItems items = Some ["reply"]
    /\ shownSurfaceItems items = Some ["reply"; "quote"].
Proof.
  destruct (toolbox_items_first_defined_wins
              {| optionConfig :=
                   Some {| surfaceItems := None; menuItems := Some ["reply"] |} |}
              Samples.builtinOptionConfig Samples.bareEnv)
    as (items & Hrun & _ & Hmenu & Hsurface & _).
  exists items. split; [exact Hrun |]. split.
  - apply (Hmenu {| surfaceItems := None; menuItems := Some ["reply"] |});
      reflexivity.
  - apply Hsurface. reflexivity.
Defined.

(** Run against the resolver of the spec, the fragment throws for a
    registry that does not list [MessageToolbox]. *)
Lemma MessageToolbox_unlisted_throws (options : gmap string ToolOption)
    (builtin : OptionConfig) (className : option string)
    (style : option StyleObject) (env : Env) :
  overrideRegistry env !! "MessageToolbox" = None ->
  exists e : string,
    MessageToolbox options builtin className style env = (Throw e, env).
Proof.
  intros Habsent. unfold MessageToolbox.
  rewrite (bind_ok _ _ _ _ _
             (useComponentOverrides_absent _ className style env Habsent)).
  destruct (selectItems_undefined_throws builtin env) as [e He].
  exists e. cbn [configOverrides Overrides.noOverrides].
  now rewrite (bind_throw _ _ _ _ _ He).
Qed.

Lemma MessageToolbox_run (options : gmap string ToolOption)
    (builtin : OptionConfig) (className : option string)
    (style : option StyleObject) (env : Env)
    (entry : OverrideEntry) (cfg : ConfigOverrides) :
  overrideRegistry env !! "MessageToolbox" = Some entry ->
  entryConfigOverrides entry = Some cfg ->
  MessageToolbox options builtin className style env
  = (Ok {| surfaceMenu :=
             whenNonEmpty
               (surfaceOptions options
                  (Js.orElse (optionConfig cfg ≫= surfaceItems)
                     (surfaceItems builtin)));
           menu :=
             whenNonEmpty
               (menuOptions options
                  (Js.orElse (optionConfig cfg ≫= menuItems)
                     (menuItems builtin))) |}, env).
Proof.
  intros Hentry Hcfg. unfold MessageToolbox.
  rewrite (bind_ok _ _ _ _ _
             (useComponentOverrides_present _ className style env entry Hentry)).
  cbn [configOverrides]. rewrite Hcfg.
  rewrite (bind_ok _ _ _ _ _ (selectItems_run cfg builtin env)).
  reflexivity.
Qed.



(** X15. Handed a [configOverrides] object by the resolver,
    [MessageToolbox] renders and builds each menu from one list only: the
    list of that name under [configOverrides.optionConfig] when it is
    defined, and its own built-in list of that name otherwise; what is
    chosen for the one menu has no part in the other. *)
Theorem toolbox_menus_from_override_or_builtin
    (options : gmap string ToolOption) (builtin : OptionConfig)
    (className : option string) (style : option StyleObject) (env : Env)
    (entry : OverrideEntry) (cfg : ConfigOverrides) :
  overrideRegistry env !! "MessageToolbox" = Some entry ->
  entryConfigOverrides entry = Some cfg ->
  exists view : ToolboxView,
    MessageToolbox options builtin className style env = (Ok view, env)
    /\ (forall (oc : OptionConfig) (l : list string),
          optionConfig cfg = Some oc -> menuItems oc = Some l ->
          menu view = whenNonEmpty (menuOptions options (Some l)))
    /\ (optionConfig cfg ≫= menuItems = None ->
        menu view = whenNonEmpty (menuOptions options (menuItems builtin)))
    /\ (forall (oc : OptionConfig) (l : list string),
          optionConfig cfg = Some oc -> surfaceItems oc = Some l ->
          surfaceMenu view = whenNonEmpty (surfaceOptions options (Some l)))
    /\ (optionConfig cfg ≫= surfaceItems = None ->
        surfaceMenu view
        = whenNonEmpty (surfaceOptions options (surfaceItems builtin))).
Proof.
  intros Hentry Hcfg. eexists. split.
  - eapply MessageToolbox_run; [exact Hentry | exact Hcfg].
  - cbn [menu surfaceMenu]. repeat split.
    + intros oc l -> Hl. cbn. now rewrite Hl.
    + intros ->. reflexivity.
    + intros oc l -> Hl. cbn. now rewrite Hl.
    + intros ->. reflexivity.
Qed.

(** The registry lists the menu items only: the menu is built from the
    registry's list, the surface menu from the built-in one. *)
Lemma toolbox_menus_from_override_or_builtin_witness :
  exists view : ToolboxView,
    MessageToolbox Samples.visibleOptions Samples.builtinOptionConfig None None
      (mkEnv None Samples.replyOnlyRegistry)
    = (Ok view, mkEnv None Samples.replyOnlyRegistry)
    /\ menu view = whenNonEmpty (menuOptions Samples.visibleOptions (Some ["reply"]))
    /\ surfaceMenu view
       = whenNonEmpty
           (surfaceOptions Samples.visibleOptions (Some ["reply"; "quote"])).
Proof.
  destruct (toolbox_menus_from_override_or_builtin Samples.visibleOptions
              Samples.builtinOptionConfig None None
              (mkEnv None Samples.replyOnlyRegistry)
              Samples.replyOnlyEntry
              {| optionConfig :=
                   Some {| surfaceItems := None; menuItems := Some ["reply"] |} |}
              eq_refl eq_refl)
    as (view & Hrun & Hmenu & _ & _ & Hsurface).
  exists view. split; [exact Hrun |]. split.
  - apply (Hmenu {| surfaceItems := None; menuItems := Some ["reply"] |});
      reflexivity.
  - apply Hsurface. reflexivity.
Defined.

(** C8, as the code has it. With the registry entry
    [{ configOverrides: { optionConfig: { menuItems: ["reply"] } } }] for
    [MessageToolbox], the menu holds the option built from
    [options.reply] and no other when that option exists and is visible;
    when it is missing or not visible no menu is rendered at all. *)
Theorem toolbox_reply_only_menu (options : gmap string ToolOption)
    (builtin : OptionConfig) (className : option string)
    (style : option StyleObject) (env : Env) :
  overrideRegistry env !! "MessageToolbox" = Some Samples.replyOnlyEntry ->
  exists view : ToolboxView,
    MessageToolbox options builtin className style env = (Ok view, env)
    /\ menu view
       = match options !! "reply" with
         | Some o =>
             if visible o
             then Some [ {| menuId := id o;
                            menuAction := onClick o;
                            menuLabel := label o;
                            menuIcon := iconName o |} ]
             else None
         | None => None
         end.
Proof.
  intros Hentry. eexists. split.
  - eapply MessageToolbox_run; [exact Hentry | reflexivity].
  - cbn [menu]. cbn. unfold toMenuOption.
    destruct (options !! "reply") as [o |]; [| reflexivity].
    destruct (visible o); reflexivity.
Qed.

(** Where the reply option is visible the menu is that one option. *)
Lemma toolbox_reply_only_menu_witness :
  exists view : ToolboxView,
    MessageToolbox Samples.visibleOptions Samples.builtinOptionConfig None None
      (mkEnv None Samples.replyOnlyRegistry)
    = (Ok view, mkEnv None Samples.replyOnlyRegistry)
    /\ menu view
       = Some [ {| menuId := "reply";
                   menuAction := "handleOpenThread";
                   menuLabel := "Reply in thread";
                   menuIcon := "thread" |} ].
Proof.
  destruct (toolbox_reply_only_menu Samples.visibleOptions
              Samples.builtinOptionConfig None None
              (mkEnv None Samples.replyOnlyRegistry) eq_refl)
    as (view & Hrun & Hmenu).
  exists view. split; [exact Hrun |]. rewrite Hmenu. reflexivity.
Defined.

(** C8 fails as stated: where the reply option is not visible, the same
    registry entry leaves the menu without any option, and no menu is
    rendered. *)
Lemma toolbox_reply_hidden_no_menu :
  exists view : ToolboxView,
    MessageToolbox Samples.hiddenReplyOptions Samples.builtinOptionConfig None None
      (mkEnv None Samples.replyOnlyRegistry)
    = (Ok view, mkEnv None Samples.replyOnlyRegistry)
    /\ menu view = None
    /\ ~ (exists o : MenuOption, menu view = Some [o]).
Proof.
  eexists. split; [reflexivity |]. split; [reflexivity |].
  intros [o Ho]. discriminate Ho.
Qed.

End ToolboxFacts.

(* ===================================================================== *)
(** ** MessageHeader and Message: properties                              *)
(* ===================================================================== *)

Section VariantFacts.
Import MessageData MessageView.

(** The falsy values of a variant tag. *)
Lemma truthy_false_inv (v : option string) :
  Js.truthy v = false -> v = None \/ v = Some EmptyString.
Proof.
  destruct v as [s |]; [| now left].
  cbn. intros Hs. right. f_equal.
  apply String.eqb_eq. now destruct (String.eqb s EmptyString).
Qed.

Lemma displayNameVariant_truthy (tag : string) :
  Js.truthy (Some tag) = true -> Header.displayNameVariant (Some tag) = tag.
Proof. unfold Header.displayNameVariant. now intros ->. Qed.

(** A registry that gives [MessageHeader] no variant tag, or a falsy
    one, leaves the user name without the colour of the colorize
    variant. *)
Lemma MessageHeaderUserName_no_tag (userNameCss : Css)
    (getDisplayNameColor : string -> string) (m : MessageObject) (env : Env) :
  Js.truthy (overrideRegistry env !! "MessageHeader"
             ≫= OverrideData.entryVariantOverrides) = false ->
  exists box : Header.UserNameBox,
    Header.MessageHeaderUserName userNameCss getDisplayNameColor m env = (Ok box, env)
    /\ Header.style box = None.
Proof.
  intros Hfalsy. unfold Header.MessageHeaderUserName.
  rewrite (bind_ok _ _ _ _ _
             (useComponentOverrides_run "MessageHeader" None None env)).
  eexists. split; [reflexivity |]. cbn [Header.style].
  destruct (overrideRegistry env !! "MessageHeader") as [entry |];
    cbn in Hfalsy |- *; [| reflexivity].
  destruct (truthy_false_inv _ Hfalsy) as [-> | ->]; reflexivity.
Qed.

(** With the tag colorize the user name gets its colour. *)
Lemma MessageHeaderUserName_colorize (userNameCss : Css)
    (getDisplayNameColor : string -> string) (m : MessageObject) (env : Env)
    (entry : OverrideData.OverrideEntry) :
  overrideRegistry env !! "MessageHeader" = Some entry ->
  OverrideData.entryVariantOverrides entry = Some "colorize" ->
  exists box : Header.UserNameBox,
    Header.MessageHeaderUserName userNameCss getDisplayNameColor m env = (Ok box, env)
    /\ Header.style box
       = Some {[ "color" := getDisplayNameColor (username (u m)) ]}.
Proof.
  intros Hentry Htag. unfold Header.MessageHeaderUserName.
  rewrite (bind_ok _ _ _ _ _
             (useComponentOverrides_present "MessageHeader" None None env entry Hentry)).
  eexists. split; [reflexivity |]. cbn. now rewrite Htag.
Qed.

(** The divider either gets its date or the render stops. *)
Lemma divider_run (props : Props) (env : Env) :
  (if default false (newDay props)
   then date ← formatDate (ts (message props)); mret (Some date)
   else mret None) env
  = if dividerFormats props
    then (Ok (if default false (newDay props)
              then Some (ts (message props))
              else None), env)
    else (Throw "RangeError: Invalid time value", env).
Proof.
  unfold dividerFormats, formatDate.
  destruct (default false (newDay props)); cbn; [| reflexivity].
  destruct (validTime (ts (message props))); reflexivity.
Qed.

(** Asked for a divider on a time stamp that is no date, [Message]
    throws. *)
Lemma Message_throws (hooks : StyleHooks) (props : Props) (env : Env) :
  dividerFormats props = false ->
  Message hooks props env = (Throw "RangeError: Invalid time value", env).
Proof.
  intros Hdate. unfold Message. rewrite !bind_reads. cbn zeta.
  apply bind_throw. now rewrite divider_run, Hdate.
Qed.

Lemma Message_ok_formats (hooks : StyleHooks) (props : Props) (env env' : Env)
    (tree : MessageTree) :
  Message hooks props env = (Ok tree, env') -> dividerFormats props = true.
Proof.
  intros Hrun. destruct (dividerFormats props) eqn:Hdate; [reflexivity |].
  rewrite (Message_throws hooks props env Hdate) in Hrun. discriminate.
Qed.

(** What [Message] builds, as far as the variant goes. *)
Lemma Message_tree (hooks : StyleHooks) (props : Props) (env : Env) :
  dividerFormats props = true ->
  exists tree : MessageTree,
    Message hooks props env = (Ok tree, env)
    /\ containerVariantStyles tree
       = (if String.eqb (default "default" (variantOverrides props)) "bubble"
          then useBubbleStyles hooks env
                 (String.eqb (username (u (message props))) "spiral_memory")
          else emptyStyles)
    /\ boxCss tree
       = default (main (useMessageStyles hooks env))
           (messageParent (containerVariantStyles tree))
    /\ header tree
       = (if negb (default false (sequential props))
          then Some {| headerMessage := message props;
                       showDisplayName :=
                         if namedBubble (containerVariantStyles tree)
                         then Some (negb (String.eqb
                                            (username (u (message props)))
                                            "spiral_memory"))
                         else None |}
          else None).
Proof.
  intros Hdate. unfold Message. rewrite !bind_reads. cbn zeta.
  erewrite bind_ok by (rewrite divider_run, Hdate; reflexivity).
  eexists. split; [reflexivity |]. repeat split; reflexivity.
Qed.

(** The body [Message] builds. *)
Lemma Message_body (hooks : StyleHooks) (props : Props) (env : Env) :
  dividerFormats props = true ->
  exists tree : MessageTree,
    Message hooks props env = (Ok tree, env)
    /\ containerVariantStyles tree
       = (if String.eqb (default "default" (variantOverrides props)) "bubble"
          then useBubbleStyles hooks env
                 (String.eqb (username (u (message props))) "spiral_memory")
          else emptyStyles)
    /\ body tree
       = (if noType (message props)
          then Some {| bodyClassName := "ec-message-body";
                       bodyId := "ec-message-body-" ++ _id (message props);
                       bodyCss :=
                         if isPending (message props)
                         then Some (pendingMessageBody (useMessageStyles hooks env))
                         else None;
                       bodyVariantStyles := containerVariantStyles tree;
                       isText := bool_decide (is_Some (md (message props)));
                       bodySequential := default false (sequential props);
                       bodyLastSequential := default false (lastSequential props);
                       markdownBody := message props;
                       markdownIsReaction := false;
                       toolbox :=
                         Some {| toolboxMessage := message props;
                                 toolboxVariantStyles :=
                                   containerVariantStyles tree |} |}
          else None).
Proof.
  intros Hdate. unfold Message. rewrite !bind_reads. cbn zeta.
  erewrite bind_ok by (rewrite divider_run, Hdate; reflexivity).
  eexists. split; [reflexivity |]. split; [reflexivity |].
  cbn [body containerVariantStyles].
  destruct (noType (message props)); reflexivity.
Qed.

(** C6, as the code has it. A registry entry that gives [MessageHeader]
    no variant tag, or a falsy one, makes the header use the literal
    Normal as its display-name variant, and the user name gets no colour.
    [Message] takes its variant from its own prop and not from the
    registry: with the prop unset, or falsy, it renders the tree of the
    variant named default, whose variant styles are empty everywhere and
    whose box has the main style, whatever the registry holds. *)
Theorem variant_literal_defaults
    (userNameCss : Css) (getDisplayNameColor : string -> string)
    (hooks : StyleHooks) (m : MessageObject)
    (sequential lastSequential newDay : option bool)
    (v : option string) (env : Env) :
  (Js.truthy (overrideRegistry env !! "MessageHeader"
              ≫= OverrideData.entryVariantOverrides) = false ->
   exists (r : OverrideData.ResolvedOverride) (box : Header.UserNameBox),
     Overrides.useComponentOverrides "MessageHeader" None None env = (Ok r, env)
     /\ Header.displayNameVariant (OverrideData.variantOverrides r) = "Normal"
     /\ Header.MessageHeaderUserName userNameCss getDisplayNameColor m env
        = (Ok box, env)
     /\ Header.style box = None)
  /\ (Js.truthy v = false ->
      dividerFormats (mkProps m sequential lastSequential newDay v) = true ->
      exists tree : MessageTree,
        Message hooks (mkProps m sequential lastSequential newDay v) env
        = (Ok tree, env)
        /\ Message hooks
             (mkProps m sequential lastSequential newDay (Some "default")) env
           = (Ok tree, env)
        /\ containerVariantStyles tree = emptyStyles
        /\ boxCss tree = main (useMessageStyles hooks env)
        /\ (forall h : MessageHeaderElement,
              header tree = Some h -> showDisplayName h = None)
        /\ (forall b : MessageBodyElement,
              body tree = Some b ->
              bodyVariantStyles b = emptyStyles
              /\ exists tb : MessageToolboxElement,
                   toolbox b = Some tb /\ toolboxVariantStyles tb = emptyStyles)).
Proof.
  split; [intros Hregistry | intros Hfalsy Hdate].
  - destruct (MessageHeaderUserName_no_tag userNameCss getDisplayNameColor m env
                Hregistry) as (box & Hbox & Hstyle).
    eexists _, box.
    split; [apply (useComponentOverrides_run "MessageHeader" None None env) |].
    split; [| split; [exact Hbox | exact Hstyle]].
    cbn [OverrideData.variantOverrides].
    destruct (overrideRegistry env !! "MessageHeader") as [entry |];
      cbn in Hregistry |- *; [| reflexivity].
    destruct (truthy_false_inv _ Hregistry) as [-> | ->]; reflexivity.
  - destruct (Message_tree hooks _ env Hdate)
      as (tree & Hrun & Hvariant & Hbox & Hhead).
    destruct (Message_body hooks _ env Hdate)
      as (tree' & Hrun' & _ & Hbody).
    rewrite Hrun in Hrun'. injection Hrun' as <-.
    assert (containerVariantStyles tree = emptyStyles) as Hempty.
    { rewrite Hvariant. cbn [variantOverrides].
      destruct (truthy_false_inv v Hfalsy) as [-> | ->]; reflexivity. }
    exists tree. split; [exact Hrun |]. split.
    { rewrite <- Hrun. unfold Message. cbn [variantOverrides].
      destruct (truthy_false_inv v Hfalsy) as [-> | ->]; reflexivity. }
    split; [exact Hempty |]. split; [now rewrite Hbox, Hempty |]. split.
    + intros h. rewrite Hhead, Hempty.
      destruct (negb (default false (MessageView.sequential _)));
        [intros [= <-]; reflexivity | discriminate].
    + intros b. rewrite Hbody, Hempty.
      destruct (noType _); [intros [= <-] | discriminate].
      split; [reflexivity |]. eexists. split; reflexivity.
Qed.

Lemma variant_literal_defaults_witness :
  (exists box : Header.UserNameBox,
      Header.MessageHeaderUserName "font-weight: 700;" (fun _ => "#2f855a")
        (Samples.messageFrom "alice") Samples.bubbleEnv
      = (Ok box, Samples.bubbleEnv)
      /\ Header.style box = None)
  /\ exists tree : MessageTree,
       Message Samples.styleHooks
         (mkProps (Samples.messageFrom "alice") None None (Some true)
            (Some EmptyString))
         Samples.bubbleEnv
       = (Ok tree, Samples.bubbleEnv)
       /\ containerVariantStyles tree = emptyStyles
       /\ boxCss tree = main Samples.messageStyles.
Proof.
  destruct (variant_literal_defaults "font-weight: 700;" (fun _ => "#2f855a")
              Samples.styleHooks (Samples.messageFrom "alice")
              None None (Some true) (Some EmptyString) Samples.bubbleEnv)
    as [Hheader Hmessage].
  destruct (Hheader eq_refl) as (r & box & _ & _ & Hbox & Hstyle).
  destruct (Hmessage eq_refl eq_refl) as (tree & Hrun & _ & Hvariant & Hcss & _).
  split.
  - exists box. split; [exact Hbox | exact Hstyle].
  - exists tree. split; [exact Hrun |]. split; [exact Hvariant | exact Hcss].
Defined.

(** C6 fails as stated for [Message]: under a registry that gives no
    variant tag at all, a message rendered with the prop
    [variantOverrides] set to bubble gets the bubble styles, not the
    default layout. *)
Lemma message_bubble_prop_untagged_registry :
  overrideRegistry Samples.bareEnv !! "Message" = None
  /\ exists tree : MessageTree,
       Message Samples.styleHooks
         (Samples.bubbleMessage (Samples.messageFrom "alice")) Samples.bareEnv
       = (Ok tree, Samples.bareEnv)
       /\ containerVariantStyles tree = Samples.bubbleStyles false
       /\ containerVariantStyles tree <> emptyStyles
       /\ boxCss tree <> main Samples.messageStyles.
Proof.
  split; [reflexivity |]. eexists. split; [reflexivity |].
  split; [reflexivity |]. split; discriminate.
Qed.




(** C10. Whether the message is the user's own is the outcome of
    comparing [message.u.username] with the literal spiral_memory, and of
    nothing else: the bubble styles are asked for with that outcome, and
    in the bubble variant the header of a message that renders, when
    there is one, is told to show the display name exactly when the
    comparison fails. *)
Theorem message_isMe_display_name (hooks : StyleHooks) (props : Props) (env : Env) :
  variantOverrides props = Some "bubble" ->
  namedBubble
    (useBubbleStyles hooks env
       (String.eqb (username (u (message props))) "spiral_memory")) = true ->
  default false (sequential props) = false ->
  dividerFormats props = true ->
  exists (tree : MessageTree) (h : MessageHeaderElement),
    Message hooks props env = (Ok tree, env)
    /\ containerVariantStyles tree
       = useBubbleStyles hooks env
           (String.eqb (username (u (message props))) "spiral_memory")
    /\ header tree = Some h
    /\ (showDisplayName h = Some true
        <-> username (u (message props)) <> "spiral_memory")
    /\ (showDisplayName h = Some false
        <-> username (u (message props)) = "spiral_memory").
Proof.
  intros Hprop Hnamed Hheader Hdate.
  destruct (Message_tree hooks props env Hdate)
    as (tree & Hrun & Hvariant & _ & Hhead).
  rewrite Hprop in Hvariant. cbn in Hvariant.
  rewrite Hvariant, Hnamed, Hheader in Hhead. cbn in Hhead.
  eexists tree, _. split; [exact Hrun |]. split; [exact Hvariant |].
  split; [exact Hhead |]. cbn [showDisplayName].
  destruct (String.eqb_spec (username (u (message props))) "spiral_memory")
    as [Heq | Hne]; cbn; split; split; intros H;
    try reflexivity; try congruence; try discriminate.
Qed.

(** Another user's message shows the name, the own message hides it. *)
Lemma message_isMe_display_name_witness :
  (exists (tree : MessageTree) (h : MessageHeaderElement),
      Message Samples.styleHooks
        (Samples.bubbleMessage (Samples.messageFrom "alice")) Samples.bareEnv
      = (Ok tree, Samples.bareEnv)
      /\ header tree = Some h
      /\ showDisplayName h = Some true)
  /\ (exists (tree : MessageTree) (h : MessageHeaderElement),
        Message Samples.styleHooks
          (Samples.bubbleMessage (Samples.messageFrom "spiral_memory"))
          Samples.bareEnv
        = (Ok tree, Samples.bareEnv)
        /\ header tree = Some h
        /\ showDisplayName h = Some false).
Proof.
  split.
  - destruct (message_isMe_display_name Samples.styleHooks
                (Samples.bubbleMessage (Samples.messageFrom "alice"))
                Samples.bareEnv eq_refl eq_refl eq_refl eq_refl)
      as (tree & h & Hrun & _ & Hhead & Hshown & _).
    exists tree, h. split; [exact Hrun |]. split; [exact Hhead |].
    apply Hshown. discriminate.
  - destruct (message_isMe_display_name Samples.styleHooks
                (Samples.bubbleMessage (Samples.messageFrom "spiral_memory"))
                Samples.bareEnv eq_refl eq_refl eq_refl eq_refl)
      as (tree & h & Hrun & _ & Hhead & _ & Hhidden).
    exists tree, h. split; [exact Hrun |]. split; [exact Hhead |].
    apply Hhidden. reflexivity.
Defined.

(** Outside the bubble variant the header is not told anything about the
    display name. *)
Lemma message_plain_header (hooks : StyleHooks) (props : Props) (env : Env) :
  Js.strictEq (variantOverrides props) "bubble" = false ->
  default false (sequential props) = false ->
  dividerFormats props = true ->
  exists tree : MessageTree,
    Message hooks props env = (Ok tree, env)
    /\ header tree
       = Some {| headerMessage := message props; showDisplayName := None |}.
Proof.
  intros Hplain Hheader Hdate.
  destruct (Message_tree hooks props env Hdate)
    as (tree & Hrun & Hvariant & _ & Hhead).
  exists tree. split; [exact Hrun |].
  rewrite Hhead, Hheader, Hvariant. cbn.
  destruct (variantOverrides props) as [tag |]; cbn in Hplain |- *;
    [rewrite Hplain |]; reflexivity.
Qed.

(** A sequential message has no header at all. *)
Lemma message_sequential_no_header (hooks : StyleHooks) (props : Props) (env : Env) :
  sequential props = Some true ->
  dividerFormats props = true ->
  exists tree : MessageTree,
    Message hooks props env = (Ok tree, env) /\ header tree = None.
Proof.
  intros Hseq Hdate.
  destruct (Message_tree hooks props env Hdate) as (tree & Hrun & _ & _ & Hhead).
  exists tree. split; [exact Hrun |]. now rewrite Hhead, Hseq.
Qed.

End VariantFacts.

(* ===================================================================== *)
(** ** Toolbox options: what is listed, in which order, and when          *)
(* ===================================================================== *)

Section OptionListFacts.
Import OverrideData Toolbox.

(** Mapping and dropping the nulls keeps exactly the images. *)
Lemma dropNull_map_In {A B : Type} (f : A -> option B) (xs : list A) (y : B) :
  In y (Js.dropNull (map f xs)) <-> exists x : A, In x xs /\ f x = Some y.
Proof.
  induction xs as [| x xs IH].
  - split; [intros [] | intros (x & [] & _)].
  - rewrite dropNull_map_cons. destruct (f x) as [y' |] eqn:Hfx.
    + cbn [In]. rewrite IH. split.
      * intros [<- | (x' & Hin & Hx')]; [exists x | exists x']; auto.
      * intros (x' & [<- | Hin] & Hx'); [left; congruence | right; eauto].
    + rewrite IH. split.
      * intros (x' & Hin & Hx'). exists x'. split; [now right | exact Hx'].
      * intros (x' & [<- | Hin] & Hx'); [congruence | eauto].
Qed.

Lemma dropNull_map_app {A B : Type} (f : A -> option B) (xs ys : list A) :
  Js.dropNull (map f (xs ++ ys)%list)
  = (Js.dropNull (map f xs) ++ Js.dropNull (map f ys))%list.
Proof.
  induction xs as [| x xs IH]; [reflexivity |].
  cbn [app]. rewrite !dropNull_map_cons, IH. now destruct (f x).
Qed.

(** Nothing is dropped exactly when nothing is null. *)
Lemma dropNull_map_full {A B : Type} (f : A -> option B) (xs : list A) :
  length (Js.dropNull (map f xs)) = length xs
  <-> Forall (fun x => is_Some (f x)) xs.
Proof.
  induction xs as [| x xs IH].
  - split; [constructor | reflexivity].
  - rewrite dropNull_map_cons.
    pose proof (dropNull_map_length f xs) as Hle.
    destruct (f x) as [y |] eqn:Hfx; cbn [length]; split.
    + intros Hlen. constructor; [rewrite Hfx; eauto | apply IH; lia].
    + intros Hall. inversion Hall; subst. f_equal. now apply IH.
    + intros Hlen. lia.
    + intros Hall. inversion Hall as [| ? ? [y Hy] _]; subst. congruence.
Qed.

Lemma toMenuOption_Some (options : gmap string ToolOption) (item : string)
    (mo : MenuOption) :
  toMenuOption options item = Some mo
  <-> exists o : ToolOption,
        options !! item = Some o
        /\ visible o = true
        /\ mo = {| menuId := id o;
                   menuAction := onClick o;
                   menuLabel := label o;
                   menuIcon := iconName o |}.
Proof.
  unfold toMenuOption. destruct (options !! item) as [o |].
  - destruct (visible o) eqn:Hvisible; split.
    + intros [= <-]. eauto.
    + intros (o' & [= <-] & _ & ->). reflexivity.
    + discriminate.
    + intros (o' & [= <-] & Hv & _). congruence.
  - split; [discriminate | intros (o & Ho & _); discriminate].
Qed.

Lemma toSurfaceOption_Some (options : gmap string ToolOption) (item : string)
    (so : SurfaceOption) :
  toSurfaceOption options item = Some so
  <-> exists o : ToolOption,
        options !! item = Some o
        /\ visible o = true
        /\ so = {| surfaceId := id o;
                   surfaceOnClick := onClick o;
                   surfaceLabel := label o;
                   surfaceIconName := iconName o;
                   surfaceType := type o |}.
Proof.
  unfold toSurfaceOption. destruct (options !! item) as [o |].
  - destruct (visible o) eqn:Hvisible; split.
    + intros [= <-]. eauto.
    + intros (o' & [= <-] & _ & ->). reflexivity.
    + discriminate.
    + intros (o' & [= <-] & Hv & _). congruence.
  - split; [discriminate | intros (o & Ho & _); discriminate].
Qed.

Lemma menu_option_In (options : gmap string ToolOption)
    (items : list string) (mo : MenuOption) :
  In mo (Js.dropNull (map (toMenuOption options) items))
  <-> exists (item : string) (o : ToolOption),
        In item items
        /\ options !! item = Some o
        /\ visible o = true
        /\ mo = {| menuId := id o;
                   menuAction := onClick o;
                   menuLabel := label o;
                   menuIcon := iconName o |}.
Proof.
  rewrite dropNull_map_In. split.
  - intros (item & Hin & Hitem). apply toMenuOption_Some in Hitem.
    destruct Hitem as (o & Hrest). eauto.
  - intros (item & o & Hin & Hrest). exists item. split; [exact Hin |].
    apply toMenuOption_Some. eauto.
Qed.

(** X1. The menu options are exactly the options built from the listed
    items that name a visible entry of the [options] table: an item
    without an entry, or with an entry that is not visible, gives no
    option, and no option comes from anywhere else. *)
Theorem menuOptions_membership (options : gmap string ToolOption)
    (items : list string) :
  exists result : list MenuOption,
    menuOptions options (Some items) = Some result
    /\ forall mo : MenuOption,
         In mo result
         <-> exists (item : string) (o : ToolOption),
               In item items
               /\ options !! item = Some o
               /\ visible o = true
               /\ mo = {| menuId := id o;
                          menuAction := onClick o;
                          menuLabel := label o;
                          menuIcon := iconName o |}.
Proof.
  eexists. split; [reflexivity |]. intros mo. apply menu_option_In.
Qed.

(** X2. The same for the surface menu: its options are exactly those
    built from the listed surface items that name a visible entry, the
    entry's [type] carried along. *)
Theorem surfaceOptions_membership (options : gmap string ToolOption)
    (items : list string) :
  exists result : list SurfaceOption,
    surfaceOptions options (Some items) = Some result
    /\ forall so : SurfaceOption,
         In so result
         <-> exists (item : string) (o : ToolOption),
               In item items
               /\ options !! item = Some o
               /\ visible o = true
               /\ so = {| surfaceId := id o;
                          surfaceOnClick := onClick o;
                          surfaceLabel := label o;
                          surfaceIconName := iconName o;
                          surfaceType := type o |}.
Proof.
  eexists. split; [reflexivity |]. intros so.
  rewrite dropNull_map_In. split.
  - intros (item & Hin & Hitem). apply toSurfaceOption_Some in Hitem.
    destruct Hitem as (o & Hrest). eauto.
  - intros (item & o & Hin & Hrest). exists item. split; [exact Hin |].
    apply toSurfaceOption_Some. eauto.
Qed.

(** X3. The menu follows the list: the options of a list put together
    from two lists are those of the first followed by those of the
    second; there are never more options than items, and as many exactly
    when every item names a visible entry. *)
Theorem menuOptions_order_and_count (options : gmap string ToolOption)
    (items more : list string) :
  exists result rest : list MenuOption,
    menuOptions options (Some items) = Some result
    /\ menuOptions options (Some more) = Some rest
    /\ menuOptions options (Some (items ++ more)%list)
       = Some (result ++ rest)%list
    /\ length result <= length items
    /\ (length result = length items
        <-> Forall (fun item =>
                      exists o : ToolOption,
                        options !! item = Some o /\ visible o = true) items).
Proof.
  eexists _, _. split; [reflexivity |]. split; [reflexivity |].
  split; [cbn; now rewrite dropNull_map_app |].
  split; [apply dropNull_map_length |].
  rewrite dropNull_map_full, !Forall_forall.
  split; intros Hall item Hin.
  - destruct (Hall item Hin) as [mo Hmo].
    apply toMenuOption_Some in Hmo. destruct Hmo as (o & Ho & Hv & _). eauto.
  - destruct (Hall item Hin) as (o & Ho & Hv).
    eexists. apply toMenuOption_Some. eauto.
Qed.

(** X4. [Menu] is rendered exactly when the effective item list is
    defined and one of its items names a visible entry; it then gets all
    the menu options. With an undefined list, an empty one, or one of
    unknown or hidden items only, nothing is rendered and nothing
    throws. *)
Theorem menu_rendered_iff_visible_item (options : gmap string ToolOption)
    (menuItems : option (list string)) :
  (is_Some (whenNonEmpty (menuOptions options menuItems))
   <-> exists (items : list string) (item : string) (o : ToolOption),
         menuItems = Some items
         /\ In item items
         /\ options !! item = Some o
         /\ visible o = true)
  /\ (forall shown : list MenuOption,
        whenNonEmpty (menuOptions options menuItems) = Some shown ->
        menuOptions options menuItems = Some shown).
Proof.
  split.
  - destruct menuItems as [items |]; cbn.
    + pose proof (menu_option_In options items) as Hmem.
      destruct (Js.dropNull (map (toMenuOption options) items))
        as [| mo result]; cbn; split.
      * intros [? [=]].
      * intros (items' & item & o & [= <-] & Hin & Ho & Hv).
        assert (In {| menuId := id o;
                      menuAction := onClick o;
                      menuLabel := label o;
                      menuIcon := iconName o |} []) as []
          by (apply Hmem; eauto 8).
      * intros _. destruct (proj1 (Hmem mo) (in_eq _ _))
          as (item & o & Hin & Ho & Hv & _).
        eauto 8.
      * eauto.
    + split; [intros [? [=]] | intros (? & ? & ? & [=] & _)].
  - intros shown. destruct (menuOptions options menuItems) as [[| mo l] |];
      cbn; congruence.
Qed.

(** X5. A registry that gives [menuItems] as the empty list switches the
    menu off: the empty list is taken in place of the built-in one, so no
    [Menu] is rendered whatever the built-in list and the [options] table
    hold. *)
Theorem empty_menuItems_hides_menu (options : gmap string ToolOption)
    (cfg : ConfigOverrides) (oc builtin : OptionConfig) (env : Env) :
  optionConfig cfg = Some oc ->
  menuItems oc = Some [] ->
  exists items : Items,
    selectItems (Some cfg) builtin env = (Ok items, env)
    /\ shownMenuItems items = Some []
    /\ whenNonEmpty (menuOptions options (shownMenuItems items)) = None
    /\ shownSurfaceItems items
       = Js.orElse (surfaceItems oc) (surfaceItems builtin).
Proof.
  intros Hoc Hempty. eexists. split; [apply selectItems_run |].
  cbn [shownMenuItems shownSurfaceItems]. rewrite Hoc. cbn.
  rewrite Hempty. repeat split; reflexivity.
Qed.

(** The built-in list alone would give a menu of three options. *)
Lemma empty_menuItems_hides_menu_witness :
  (exists items : Items,
      selectItems
        (Some {| optionConfig :=
                   Some {| surfaceItems := None; menuItems := Some [] |} |})
        Samples.builtinOptionConfig Samples.bareEnv
      = (Ok items, Samples.bareEnv)
      /\ whenNonEmpty (menuOptions Samples.visibleOptions (shownMenuItems items))
         = None)
  /\ length
       (default []
          (whenNonEmpty
             (menuOptions Samples.visibleOptions
                (menuItems Samples.builtinOptionConfig)))) = 3.
Proof.
  split; [| reflexivity].
  destruct (empty_menuItems_hides_menu Samples.visibleOptions
              {| optionConfig :=
                   Some {| surfaceItems := None; menuItems := Some [] |} |}
              {| surfaceItems := None; menuItems := Some [] |}
              Samples.builtinOptionConfig Samples.bareEnv eq_refl eq_refl)
    as (items & Hrun & _ & Hnone & _).
  exists items. split; [exact Hrun | exact Hnone].
Defined.

End OptionListFacts.

(* ===================================================================== *)
(** ** Strings                                                            *)
(* ===================================================================== *)

Section StringFacts.

Lemma prefix_app (sub s : string) :
  String.prefix sub s = true <-> exists post : string, s = sub ++ post.
Proof.
  revert s. induction sub as [| a sub IH]; intros s.
  - split; [intros _; now exists s | intros _; now destruct s].
  - destruct s as [| b s]; cbn.
    + split; [discriminate | intros [post [=]]].
    + destruct (ascii_dec a b) as [<- | Hne].
      * rewrite IH. split; intros [post Hpost]; exists post.
        -- now rewrite Hpost.
        -- now injection Hpost.
      * split; [discriminate | intros [post Hpost]].
        cbn in Hpost. injection Hpost as Hab _. congruence.
Qed.

Lemma includes_of_prefix (s sub : string) :
  String.prefix sub s = true -> Js.includes s sub = true.
Proof. destruct s; cbn [Js.includes]; intros ->; reflexivity. Qed.

(** [Js.includes] is the test for a substring. *)
Lemma includes_substring (s sub : string) :
  Js.includes s sub = true
  <-> exists pre post : string, s = pre ++ sub ++ post.
Proof.
  split.
  - induction s as [| c s IH]; cbn [Js.includes];
      rewrite orb_true_iff; intros [Hprefix | Hrest].
    + apply prefix_app in Hprefix. destruct Hprefix as [post ->].
      now exists EmptyString, post.
    + discriminate.
    + apply prefix_app in Hprefix. destruct Hprefix as [post ->].
      now exists EmptyString, post.
    + destruct (IH Hrest) as (pre & post & ->).
      now exists (String c pre), post.
  - intros (pre & post & ->). induction pre as [| c pre IH].
    + change (EmptyString ++ sub ++ post) with (sub ++ post).
      apply includes_of_prefix, prefix_app. eauto.
    + change (String c pre ++ sub ++ post) with (String c (pre ++ sub ++ post)).
      cbn [Js.includes]. rewrite IH. apply orb_true_r.
Qed.

Lemma append_inj_l (p a b : string) : p ++ a = p ++ b -> a = b.
Proof.
  induction p as [| c p IH]; cbn; [trivial |].
  intros [= H]. auto.
Qed.

End StringFacts.

(* ===================================================================== *)
(** ** Message: the shape of the tree                                     *)
(* ===================================================================== *)

Section MessageTreeFacts.
Import MessageData MessageView.



(** X7. The element id of a body names its message: two bodies have the
    same id exactly when their messages have the same [_id]. *)
Theorem message_body_id_injective (hooks1 hooks2 : StyleHooks)
    (props1 props2 : Props) (env1 env2 : Env)
    (tree1 tree2 : MessageTree) (b1 b2 : MessageBodyElement) :
  Message hooks1 props1 env1 = (Ok tree1, env1) ->
  Message hooks2 props2 env2 = (Ok tree2, env2) ->
  body tree1 = Some b1 ->
  body tree2 = Some b2 ->
  bodyId b1 = bodyId b2 <-> _id (message props1) = _id (message props2).
Proof.
  intros Hrun1 Hrun2 Hb1 Hb2.
  destruct (Message_body hooks1 props1 env1 (Message_ok_formats _ _ _ _ _ Hrun1))
    as (tree1' & Hrun1' & _ & Hbody1).
  destruct (Message_body hooks2 props2 env2 (Message_ok_formats _ _ _ _ _ Hrun2))
    as (tree2' & Hrun2' & _ & Hbody2).
  rewrite Hrun1 in Hrun1'. injection Hrun1' as <-.
  rewrite Hrun2 in Hrun2'. injection Hrun2' as <-.
  rewrite Hb1 in Hbody1. rewrite Hb2 in Hbody2.
  destruct (noType (message props1)); [| discriminate].
  destruct (noType (message props2)); [| discriminate].
  injection Hbody1 as ->. injection Hbody2 as ->. cbn [bodyId].
  split; [apply append_inj_l | now intros ->].
Qed.

Lemma message_body_id_injective_witness :
  exists (tree1 tree2 : MessageTree) (b1 b2 : MessageBodyElement),
    Message Samples.styleHooks
      (Samples.onlyMessage (Samples.messageFrom "alice")) Samples.bareEnv
    = (Ok tree1, Samples.bareEnv)
    /\ Message Samples.styleHooks
         (Samples.bubbleMessage (Samples.messageFrom "bob")) Samples.bubbleEnv
       = (Ok tree2, Samples.bubbleEnv)
    /\ body tree1 = Some b1
    /\ body tree2 = Some b2
    /\ bodyId b1 = bodyId b2.
Proof.
  eexists _, _, _, _.
  split; [reflexivity |]. split; [reflexivity |].
  split; [reflexivity |]. split; [reflexivity |].
  apply (message_body_id_injective Samples.styleHooks Samples.styleHooks
           (Samples.onlyMessage (Samples.messageFrom "alice"))
           (Samples.bubbleMessage (Samples.messageFrom "bob"))
           Samples.bareEnv Samples.bubbleEnv _ _ _ _
           eq_refl eq_refl eq_refl eq_refl).
  reflexivity.
Defined.

(** X8. In a message that renders, the header is left out exactly for a
    sequential message. When there is one, it is told whether to show the
    display name exactly when the prop [variantOverrides] is the string
    bubble and the name of the bubble style sheet contains the text
    bubble somewhere; in every other case the prop [showDisplayName] is
    not passed at all. *)
Theorem header_showDisplayName_iff (hooks : StyleHooks) (props : Props) (env : Env) :
  dividerFormats props = true ->
  exists tree : MessageTree,
    Message hooks props env = (Ok tree, env)
    /\ (header tree = None <-> sequential props = Some true)
    /\ forall h : MessageHeaderElement,
         header tree = Some h ->
         headerMessage h = message props
         /\ (is_Some (showDisplayName h)
             <-> variantOverrides props = Some "bubble"
                 /\ exists sheetName pre post : string,
                      name (useBubbleStyles hooks env
                              (String.eqb (username (u (message props)))
                                 "spiral_memory"))
                      = Some sheetName
                      /\ sheetName = pre ++ "bubble" ++ post).
Proof.
  intros Hdate.
  destruct (Message_tree hooks props env Hdate)
    as (tree & Hrun & Hvariant & _ & Hhead).
  exists tree. split; [exact Hrun |]. rewrite Hhead. split.
  - destruct (sequential props) as [[|] |]; cbn; split;
      try reflexivity; try discriminate.
  - intros h Hh.
    destruct (negb (default false (sequential props))); [| discriminate].
    injection Hh as <-. cbn [headerMessage showDisplayName].
    split; [reflexivity |]. rewrite Hvariant. clear Hvariant Hhead Hrun.
    destruct (variantOverrides props) as [tag |] eqn:Htag; cbn.
    + destruct (String.eqb_spec tag "bubble") as [-> | Hne].
      * unfold namedBubble.
        destruct (name (useBubbleStyles hooks env _)) as [sheetName |].
        -- destruct (Js.includes sheetName "bubble") eqn:Hinc.
           ++ apply includes_substring in Hinc.
              destruct Hinc as (pre & post & Hinc). split; [| eauto].
              intros _. split; [reflexivity |]. eauto.
           ++ split; [intros [? [=]] |].
              intros (_ & n & pre & post & [= <-] & Hn).
              assert (Js.includes sheetName "bubble" = true) as Hyes
                by (apply includes_substring; eauto).
              congruence.
        -- split; [intros [? [=]] | intros (_ & ? & ? & ? & [=] & _)].
      * cbn. split; [intros [? [=]] | intros ([= ->] & _); contradiction].
    + split; [intros [? [=]] | intros ([=] & _)].
Qed.

(** A bubble message with a divider on a valid date: the header is told
    to show the name of another user. *)
Lemma header_showDisplayName_iff_witness :
  exists (tree : MessageTree) (h : MessageHeaderElement),
    Message Samples.styleHooks
      (mkProps (Samples.messageFrom "alice") None None (Some true)
         (Some "bubble"))
      Samples.bareEnv
    = (Ok tree, Samples.bareEnv)
    /\ header tree = Some h
    /\ is_Some (showDisplayName h)
    /\ divider tree = Some 1700000000000%Z.
Proof.
  destruct (header_showDisplayName_iff Samples.styleHooks
              (mkProps (Samples.messageFrom "alice") None None (Some true)
                 (Some "bubble"))
              Samples.bareEnv eq_refl)
    as (tree & Hrun & _ & Hhead).
  pose proof Hrun as Htree. vm_compute in Htree. injection Htree as <-.
  eexists _, _. split; [exact Hrun |]. split; [reflexivity |].
  split; [| reflexivity].
  apply (Hhead _ eq_refl). split; [reflexivity |].
  exists "bubble", EmptyString, EmptyString. split; reflexivity.
Defined.

(** X9. Nothing in the override registry reaches [Message]: with style
    hooks that do not read the registry, the tree is the same under any
    two registries. *)
Theorem message_registry_independent (hooks : StyleHooks) (props : Props)
    (env : Env) (registry : gmap string OverrideData.OverrideEntry) :
  (forall (e : Env) (r : gmap string OverrideData.OverrideEntry),
      useMessageStyles hooks (withRegistry e r) = useMessageStyles hooks e) ->
  (forall (e : Env) (r : gmap string OverrideData.OverrideEntry) (isMe : bool),
      useBubbleStyles hooks (withRegistry e r) isMe = useBubbleStyles hooks e isMe) ->
  fst (Message hooks props (withRegistry env registry))
  = fst (Message hooks props env).
Proof.
  intros Hstyles Hbubble. unfold Message. rewrite !bind_reads. cbn zeta.
  unfold mbind at 1 3, render_bind. rewrite !divider_run.
  destruct (dividerFormats props); [| reflexivity].
  unfold mret, render_ret. cbn [fst].
  now rewrite Hstyles, Hbubble.
Qed.

Lemma message_registry_independent_witness :
  fst (Message Samples.styleHooks
         (Samples.onlyMessage (Samples.messageFrom "alice"))
         (withRegistry Samples.bareEnv Samples.bubbleRegistry))
  = fst (Message Samples.styleHooks
           (Samples.onlyMessage (Samples.messageFrom "alice"))
           Samples.bareEnv).
Proof.
  apply (message_registry_independent Samples.styleHooks
           (Samples.onlyMessage (Samples.messageFrom "alice"))
           Samples.bareEnv Samples.bubbleRegistry).
  - intros e r. reflexivity.
  - intros e r isMe. reflexivity.
Defined.

End MessageTreeFacts.

(* ===================================================================== *)
(** ** Modes, variants and themed style sheets                            *)
(* ===================================================================== *)

Section ModeAndSheetFacts.
Import ThemeData ThemeAccessor CssTemplate.

(** X10. [invertMode] answers dark for the mode light and light for
    every other value, known mode or not. So applying it twice gives the
    mode back exactly for the two modes light and dark, and for no other
    value. *)
Theorem invertMode_characterised (m : string) :
  (invertMode m = "dark" <-> m = "light")
  /\ (invertMode m = "light" <-> m <> "light")
  /\ (invertMode (invertMode m) = m <-> m = "light" \/ m = "dark").
Proof.
  unfold invertMode.
  destruct (String.eqb_spec m "light") as [-> | Hne]; cbn.
  - repeat split; try discriminate; try congruence; auto.
  - repeat split; try discriminate; try congruence.
    + intros <-. now right.
    + intros [-> | ->]; [contradiction | reflexivity].
Qed.

(** X11. The variant of the user name is the tag itself when the tag is
    truthy and Normal otherwise; it is never the empty string, and it is
    colorize, the one value that colours the name, exactly when the tag
    is the string colorize. *)
Theorem displayNameVariant_characterised (v : option string) :
  (Js.truthy v = true -> Some (Header.displayNameVariant v) = v)
  /\ (Js.truthy v = false -> Header.displayNameVariant v = "Normal")
  /\ Header.displayNameVariant v <> EmptyString
  /\ (String.eqb (Header.displayNameVariant v) "colorize" = true
      <-> v = Some "colorize").
Proof.
  destruct v as [tag |]; cbn.
  - destruct (String.eqb_spec tag EmptyString) as [-> | Hne]; cbn.
    + repeat split; try discriminate.
    + repeat split; try discriminate; try assumption.
      * intros Heq. apply String.eqb_eq in Heq. now subst.
      * intros [= ->]. reflexivity.
  - repeat split; discriminate.
Qed.

Lemma displayNameVariant_characterised_witness :
  Some (Header.displayNameVariant (Some "colorize")) = Some "colorize"
  /\ Header.displayNameVariant (Some EmptyString) = "Normal".
Proof.
  split.
  - apply (displayNameVariant_characterised (Some "colorize")). reflexivity.
  - apply (displayNameVariant_characterised (Some EmptyString)). reflexivity.
Defined.

(** X12. The themed style sheet of the guide is built only when
    [useTheme] gives a colour set: when [colors] is undefined (no scheme
    for the mode) reading [colors.border] throws. With a colour set the
    sheet interpolates the colours [border] and [secondaryForeground] and
    no other value; a colour that the set does not define is interpolated
    as undefined and nothing throws. *)
Theorem themed_css_needs_colors (DefaultTheme : Theme) (env : Env)
    (accessor : ThemeContextValue) :
  useTheme DefaultTheme env = (Ok accessor, env) ->
  (colors accessor = None ->
   exists e : string, CssExample.main DefaultTheme env = (Throw e, env))
  /\ (forall themeColors : ColorSet,
        colors accessor = Some themeColors ->
        exists block : Block,
          CssExample.main DefaultTheme env = (Ok block, env)
          /\ map property block
             = ["margin"; "display"; "max-height"; "overflow"; "overflow-x";
                "border"; "border-radius"; "color"]
          /\ holes block
             = [themeColors !! "border"; themeColors !! "secondaryForeground"]).
Proof.
  intros Hrun. unfold CssExample.main. rewrite (bind_ok _ _ _ _ _ Hrun).
  split.
  - intros ->. eexists. reflexivity.
  - intros themeColors ->. eexists. split; [reflexivity |].
    split; reflexivity.
Qed.

(** A provider in dark mode over a theme with a light scheme only: the
    sheet cannot be built. Without a provider it can. *)
Lemma themed_css_needs_colors_witness :
  (exists e : string,
      CssExample.main Samples.defaultTheme
        (mkEnv (Some (Samples.provided Samples.lightOnlyTheme "dark")) ∅)
      = (Throw e,
         mkEnv (Some (Samples.provided Samples.lightOnlyTheme "dark")) ∅))
  /\ exists block : Block,
       CssExample.main Samples.defaultTheme Samples.bareEnv
       = (Ok block, Samples.bareEnv)
       /\ holes block = [Some "#e4e7ea"; None].
Proof.
  split.
  - apply (themed_css_needs_colors Samples.defaultTheme
             (mkEnv (Some (Samples.provided Samples.lightOnlyTheme "dark")) ∅)
             (Samples.provided Samples.lightOnlyTheme "dark") eq_refl).
    reflexivity.
  - destruct (themed_css_needs_colors Samples.defaultTheme Samples.bareEnv
                _ (useTheme_run_none Samples.defaultTheme Samples.bareEnv eq_refl))
      as [_ Hbuilt].
    destruct (Hbuilt Samples.lightColors eq_refl) as (block & Hrun & _ & Hholes).
    exists block. split; [exact Hrun |]. rewrite Hholes. reflexivity.
Defined.

End ModeAndSheetFacts.

(* ===================================================================== *)
(** ** The style sheets of the message preview                            *)
(* ===================================================================== *)

Section PreviewMessageFacts.
Import CssTemplate PreviewMessage.

(** X13. [getPreviewMessageStyles] throws exactly when the theme has no
    [colors]. With colours, also with an empty set and without a radius,
    it returns the four sheets; the container interpolates background,
    foreground, border and the radius, in this order, and the three other
    sheets interpolate nothing. *)
Theorem preview_styles_need_colors (theme : PreviewTheme) :
  ((exists e : string, getPreviewMessageStyles theme = Throw e)
   <-> colors theme = None)
  /\ forall themeColors : ColorSet,
       colors theme = Some themeColors ->
       exists styles : PreviewStyles,
         getPreviewMessageStyles theme = Ok styles
         /\ holes (messageContainer styles)
            = [themeColors !! "background"; themeColors !! "foreground";
               themeColors !! "border"; radius theme]
         /\ holes (avatarContainer styles) = []
         /\ holes (message styles) = []
         /\ holes (actionBtn styles) = [].
Proof.
  unfold getPreviewMessageStyles. split.
  - destruct (colors theme); split.
    + intros [e [=]].
    + discriminate.
    + reflexivity.
    + intros _. eexists. reflexivity.
  - intros themeColors ->. eexists. split; [reflexivity |].
    repeat split; reflexivity.
Qed.

Lemma preview_styles_need_colors_witness :
  exists styles : PreviewStyles,
    getPreviewMessageStyles {| colors := Some ∅; radius := None |} = Ok styles
    /\ holes (messageContainer styles) = [None; None; None; None].
Proof.
  destruct (proj2 (preview_styles_need_colors
                     {| colors := Some ∅; radius := None |}) ∅ eq_refl)
    as (styles & Hrun & Hholes & _).
  exists styles. split; [exact Hrun |]. rewrite Hholes. reflexivity.
Defined.

(** X14. The preview style sheets read nothing of the theme but four
    values: two themes that agree on the colours background, foreground
    and border and on the radius get the same sheets, whatever else their
    colour sets hold; and the sheets of the avatar, the message and the
    action button are the same for all themes. *)
Theorem preview_styles_depend_on_four_values (theme1 theme2 : PreviewTheme)
    (colors1 colors2 : ColorSet) :
  colors theme1 = Some colors1 ->
  colors theme2 = Some colors2 ->
  exists styles1 styles2 : PreviewStyles,
    getPreviewMessageStyles theme1 = Ok styles1
    /\ getPreviewMessageStyles theme2 = Ok styles2
    /\ avatarContainer styles1 = avatarContainer styles2
    /\ message styles1 = message styles2
    /\ actionBtn styles1 = actionBtn styles2
    /\ (colors1 !! "background" = colors2 !! "background" ->
        colors1 !! "foreground" = colors2 !! "foreground" ->
        colors1 !! "border" = colors2 !! "border" ->
        radius theme1 = radius theme2 ->
        styles1 = styles2).
Proof.
  intros H1 H2. unfold getPreviewMessageStyles. rewrite H1, H2.
  eexists _, _. split; [reflexivity |]. split; [reflexivity |].
  cbn [avatarContainer message actionBtn messageContainer].
  split; [reflexivity |]. split; [reflexivity |]. split; [reflexivity |].
  intros -> -> -> ->. reflexivity.
Qed.

Lemma preview_styles_depend_on_four_values_witness :
  getPreviewMessageStyles
    {| colors := Some Samples.lightColors; radius := Some "0.2rem" |}
  = getPreviewMessageStyles
      {| colors := Some (<["accent" := "#ff0000"]> Samples.lightColors);
         radius := Some "0.2rem" |}.
Proof.
  destruct (preview_styles_depend_on_four_values
              {| colors := Some Samples.lightColors; radius := Some "0.2rem" |}
              {| colors := Some (<["accent" := "#ff0000"]> Samples.lightColors);
                 radius := Some "0.2rem" |}
              Samples.lightColors
              (<["accent" := "#ff0000"]> Samples.lightColors)
              eq_refl eq_refl)
    as (styles1 & styles2 & -> & -> & _ & _ & _ & Hsame).
  f_equal. apply Hsame; reflexivity.
Defined.

End PreviewMessageFacts.
